(** * domgen: attribute normalisation and serialisation of the element tree

    A shallow embedding of [dom/base_classes.py].  Python strings are
    modelled as [string], one [ascii] per code point (code points 0..255);
    a [dict] is an insertion-ordered association list; the order in
    which a newly built set iterates is a parameter; exceptions are values
    of [result]. *)

From Stdlib Require Import String Ascii List ZArith Lia Bool Arith.
From Stdlib Require Import DecimalString Permutation.
Import ListNotations.
Open Scope string_scope.
#[local] Set Warnings "-register-all".

(** ** Python strings *)

Module PyStr.

(** The double quote and the line feed, by code point. *)
Definition dquote : ascii := "034"%char.
Definition dq : string := String dquote "".
Definition lf : ascii := "010"%char.
Definition nl : string := String lf "".

(** [s.startswith(p)] *)
Definition startswith (s p : string) : bool := prefix p s.

(** [sub in s] *)
Fixpoint contains (sub s : string) : bool :=
  prefix sub s || match s with
                  | "" => false
                  | String _ s' => contains sub s'
                  end.

(** [s.replace(old, new)] for an empty [old]: [new] goes before every
    character and at the end. *)
Fixpoint interleave (new s : string) : string :=
  match s with
  | "" => new
  | String c s' => new ++ String c (interleave new s')
  end.

(** The scan of [s.replace(old, new)] for a non-empty [old]: left to
    right, occurrences do not overlap; [skip] counts the characters of the
    occurrence just replaced that are still to be passed over. *)
Fixpoint replace_from (old new : string) (skip : nat) (s : string) : string :=
  match s with
  | "" => ""
  | String c s' =>
      match skip with
      | S n => replace_from old new n s'
      | O =>
          if prefix old s
          then new ++ replace_from old new (pred (String.length old)) s'
          else String c (replace_from old new 0 s')
      end
  end.

(** [s.replace(old, new)] *)
Definition replace (old new s : string) : string :=
  match old with
  | "" => interleave new s
  | _ => replace_from old new 0 s
  end.

(** [sep.join(ls)] *)
Definition join (sep : string) (ls : list string) : string := String.concat sep ls.

(** [s[-i]] for [i >= 1]; [None] is Python's IndexError. *)
Definition index_from_end (s : string) (i : nat) : option ascii :=
  if (i <=? String.length s)%nat then get (String.length s - i) s else None.

(** [s[:-1]] *)
Definition drop_last (s : string) : string := substring 0 (String.length s - 1) s.

(** The characters [str.splitlines] breaks a line at, among the code
    points 0..255. *)
Definition is_linebreak (c : ascii) : bool :=
  let n := nat_of_ascii c in
  ((10 <=? n) && (n <=? 13) || (28 <=? n) && (n <=? 30) || (n =? 133))%nat.

(** [s.splitlines(True)]: the lines of [s], each with its line ending; a
    carriage return followed by a line feed is one ending. *)
Fixpoint splitlines (s : string) : list string :=
  match s with
  | "" => []
  | String c s' =>
      if is_linebreak c then
        match s' with
        | String c' s'' =>
            if (nat_of_ascii c =? 13)%nat && (nat_of_ascii c' =? 10)%nat
            then String c (String c' "") :: splitlines s''
            else String c "" :: splitlines s'
        | "" => [String c ""]
        end
      else
        match splitlines s' with
        | [] => [String c ""]
        | l :: ls => String c l :: ls
        end
  end.

(** Occurrences of the character [c] in [s]. *)
Fixpoint count (c : ascii) (s : string) : nat :=
  match s with
  | "" => 0
  | String d s' => (if Ascii.eqb c d then 1 else 0) + count c s'
  end.

(** [s[n:]] *)
Fixpoint drop (n : nat) (s : string) : string :=
  match n, s with
  | O, _ => s
  | S n', String _ s' => drop n' s'
  | S _, "" => ""
  end.

(** [s.endswith(p)] *)
Definition endswith (s p : string) : bool :=
  (String.length p <=? String.length s)%nat
  && String.eqb (drop (String.length s - String.length p) s) p.

(** A text is one line: not empty, and without a line-breaking
    character. *)
Fixpoint no_linebreak (s : string) : bool :=
  match s with
  | "" => true
  | String c s' => negb (is_linebreak c) && no_linebreak s'
  end.

Definition one_line (s : string) : bool :=
  negb (String.eqb s "") && no_linebreak s.

End PyStr.
Import PyStr.

(** ** Exceptions *)

Inductive exn : Type :=
| TypeError (msg : string)
| IndexError (msg : string)
| AttributeError (msg : string).

Inductive result (A : Type) : Type :=
| Ok (a : A)
| Raise (e : exn).
Arguments Ok {A} a.
Arguments Raise {A} e.

Definition rbind {A B : Type} (r : result A) (f : A -> result B) : result B :=
  match r with
  | Ok a => f a
  | Raise e => Raise e
  end.

Notation "x <- r ;; k" := (rbind r (fun x => k))
  (at level 61, r at next level, right associativity).

(** ** Dictionaries

    A Python [dict] keeps its keys in insertion order; assigning to a key
    that is present keeps its place, assigning to a new key appends it. *)

Section Dict.
Context {V : Type}.

Definition dict_of : Type := list (string * V).

(** [d.get(k)] *)
Fixpoint dict_get (k : string) (d : dict_of) : option V :=
  match d with
  | [] => None
  | (k', v) :: d' => if String.eqb k k' then Some v else dict_get k d'
  end.

(** [k in d] *)
Definition dict_contains (k : string) (d : dict_of) : bool :=
  match dict_get k d with
  | Some _ => true
  | None => false
  end.

(** [del d[k]], the mutation made by [d.pop(k, default)] *)
Fixpoint dict_remove (k : string) (d : dict_of) : dict_of :=
  match d with
  | [] => []
  | (k', v) :: d' =>
      if String.eqb k k' then dict_remove k d' else (k', v) :: dict_remove k d'
  end.

(** [d[k] = v] *)
Fixpoint dict_setitem (k : string) (v : V) (d : dict_of) : dict_of :=
  match d with
  | [] => [(k, v)]
  | (k', v') :: d' =>
      if String.eqb k k' then (k', v) :: d' else (k', v') :: dict_setitem k v d'
  end.

(** The keys of a dictionary are distinct. *)
Fixpoint dict_wf (d : dict_of) : bool :=
  match d with
  | [] => true
  | (k, _) :: d' => negb (dict_contains k d') && dict_wf d'
  end.
End Dict.
Arguments dict_of V : clear implicits.

(** ** Attribute values *)

(** The values a caller passes as attributes: [None], booleans, integers,
    strings, lists, string-keyed dictionaries and sets of strings.  A set
    is given by its elements, listed once each in any order; the order
    in which a set iterates is no part of the value (see [set_order]). *)
Inductive pyval : Type :=
| VNone
| VBool (b : bool)
| VInt (z : Z)
| VStr (s : string)
| VList (l : list pyval)
| VDict (d : list (string * pyval))
| VSet (l : list string).

Definition Attributes : Type := dict_of pyval.

(** [bool(v)] *)
Definition truthy (v : pyval) : bool :=
  match v with
  | VNone => false
  | VBool b => b
  | VInt z => negb (Z.eqb z 0)
  | VStr s => negb (String.eqb s "")
  | VList l => match l with [] => false | _ => true end
  | VDict d => match d with [] => false | _ => true end
  | VSet l => match l with [] => false | _ => true end
  end.

(** ** [json.dumps] *)

Module Json.

Definition hex_digit (n : nat) : ascii :=
  match get n "0123456789abcdef" with
  | Some c => c
  | None => "0"%char
  end.

(** One character of a string literal, with [ensure_ascii] on: the quote,
    the backslash and the control characters have short escapes, every
    other character outside space..tilde is written as a [\u] escape. *)
Definition escape_char (c : ascii) : string :=
  let n := nat_of_ascii c in
  if (n =? 34)%nat then String "\" dq
  else if (n =? 92)%nat then "\\"
  else if (n =? 10)%nat then "\n"
  else if (n =? 13)%nat then "\r"
  else if (n =? 9)%nat then "\t"
  else if (n =? 8)%nat then "\b"
  else if (n =? 12)%nat then "\f"
  else if ((32 <=? n) && (n <=? 126))%nat then String c ""
  else "\u00" ++ String (hex_digit (n / 16)) (String (hex_digit (n mod 16)) "").

Fixpoint escape (s : string) : string :=
  match s with
  | "" => ""
  | String c s' => escape_char c ++ escape s'
  end.

(** [json.dumps(s)] for a string [s] *)
Definition dumps_str (s : string) : string := dq ++ escape s ++ dq.

(** [str(z)] for an integer *)
Definition str_of_Z (z : Z) : string := NilZero.string_of_int (Z.to_int z).

(** Sequencing of a list of results, left to right. *)
Fixpoint sequence {A : Type} (l : list (result A)) : result (list A) :=
  match l with
  | [] => Ok []
  | r :: rs => a <- r ;; l' <- sequence rs ;; Ok (a :: l')
  end.

(** [json.dumps(v)], with the default separators; a set is not
    serialisable. *)
Fixpoint dumps (v : pyval) : result string :=
  match v with
  | VNone => Ok "null"
  | VBool true => Ok "true"
  | VBool false => Ok "false"
  | VInt z => Ok (str_of_Z z)
  | VStr s => Ok (dumps_str s)
  | VList l =>
      items <- sequence (map dumps l) ;;
      Ok ("[" ++ join ", " items ++ "]")
  | VDict d =>
      items <- sequence (map (fun kv => v' <- dumps (snd kv) ;;
                                        Ok (dumps_str (fst kv) ++ ": " ++ v')) d) ;;
      Ok ("{" ++ join ", " items ++ "}")
  | VSet _ => Raise (TypeError "Object of type set is not JSON serializable")
  end.

End Json.

(** ** The attribute transform *)

(** Code that mutates the caller's attribute mapping and may raise: the
    mapping is threaded through, and is kept as it is at the moment an
    exception is raised. *)
Definition M (A : Type) : Type := Attributes -> Attributes * result A.

Definition ret {A : Type} (a : A) : M A := fun s => (s, Ok a).
Definition raise {A : Type} (e : exn) : M A := fun s => (s, Raise e).
Definition lift {A : Type} (r : result A) : M A := fun s => (s, r).
Definition bind {A B : Type} (m : M A) (f : A -> M B) : M B :=
  fun s => match m s with
           | (s', Ok a) => f a s'
           | (s', Raise e) => (s', Raise e)
           end.
(** [attributes.pop(k, default)] *)
Definition pop (k : string) (default : pyval) : M pyval :=
  fun s => (dict_remove k s,
            Ok match dict_get k s with Some v => v | None => default end).
(** [attributes[k] = v] *)
Definition setitem (k : string) (v : pyval) : M unit :=
  fun s => (dict_setitem k v s, Ok tt).
(** The mapping as it is now. *)
Definition current : M Attributes := fun s => (s, Ok s).

Notation "x <~ m ;; k" := (bind m (fun x => k))
  (at level 61, m at next level, right associativity).
Notation "m ;;; k" := (bind m (fun _ => k))
  (at level 61, right associativity).

(** The elements of [classes - {empty}] *)
Definition without_empty (classes : list string) : list string :=
  filter (fun c => negb (String.eqb c "")) classes.

(** [key + ":" + value for key, value in style.items()] *)
Definition style_item (kv : string * pyval) : result string :=
  match snd kv with
  | VStr value => Ok (fst kv ++ ":" ++ value)
  | _ => Raise (TypeError "can only concatenate str to str")
  end.

(** Lines 46-48: the British spelling of [key], unless it starts with [data-]. *)
Definition unnormalised_colour (key : string) : string :=
  if startswith key "data-" then key else replace "color" "colour" key.

(** Line 49: the pair is passed over. *)
Definition skipped (attributes : Attributes) (key : string) : bool :=
  negb (String.eqb key (unnormalised_colour key))
  && dict_contains (unnormalised_colour key) attributes.

(** Lines 51-56: the printed value. *)
Definition encode_value (value : pyval) : result string :=
  value <- match value with
           | VStr s => Ok s
           | _ => Json.dumps value
           end ;;
  Ok (Json.dumps_str (replace dq "&quot;" value)).

(** Lines 58-59: a single trailing underscore is removed. *)
Definition strip_trailing_underscore (key : string) : result string :=
  match index_from_end key 1 with
  | None => Raise (IndexError "string index out of range")
  | Some c1 =>
      if Ascii.eqb c1 "_" then
        match index_from_end key 2 with
        | None => Raise (IndexError "string index out of range")
        | Some c2 => if negb (Ascii.eqb c2 "_") then Ok (drop_last key) else Ok key
        end
      else Ok key
  end.

(** Line 62: the underscore stage. *)
Definition hyphenate (key : string) : string :=
  replace " " "_" (replace "_" "-" (replace "__" " " key)).

(** Lines 65-66: the American spelling, unless the key starts with [data-]. *)
Definition normalise_colour (key : string) : string :=
  if negb (startswith key "data-") then replace "colour" "color" key else key.

(** The key a pair is stored under (lines 58-66). *)
Definition output_key (key : string) : result string :=
  key <- strip_trailing_underscore key ;;
  Ok (normalise_colour (hyphenate key)).

(** One turn of the loop of lines 43-67: [None] for a pair passed over. *)
Definition transform_pair (attributes : Attributes) (kv : string * pyval)
  : result (option (string * string)) :=
  let (key, value) := kv in
  if skipped attributes key then Ok None
  else
    value <- encode_value value ;;
    key <- output_key key ;;
    Ok (Some (key, value)).

(** The loop of lines 43-67 over [items], reading [attributes]. *)
Fixpoint transform_pairs (attributes : Attributes) (items : list (string * pyval))
  (new_attributes : dict_of string) : result (dict_of string) :=
  match items with
  | [] => Ok new_attributes
  | kv :: rest =>
      p <- transform_pair attributes kv ;;
      transform_pairs attributes rest
        match p with
        | Some (key, value) => dict_setitem key value new_attributes
        | None => new_attributes
        end
  end.

(** One order in which a set may iterate: the order its elements are
    listed in. *)
Definition passed_order (names : list string) : list string := names.

Section SetOrder.

(** The order in which a set newly built from the given elements
    iterates.  CPython derives it from the hashes of the elements, which
    change from run to run, so the model takes it as a parameter: any
    function that lists the elements it is given. *)
Variable set_order : list string -> list string.
Hypothesis set_order_perm : forall names, Permutation (set_order names) names.

(** Lines 35-37: the class stage.  The difference [classes - {empty}] is a
    new set, and [join] takes its elements as that set iterates. *)
Definition normalise_classes : M unit :=
  classes <~ pop "classes" (VSet []) ;;
  if truthy classes then
    match classes with
    | VSet cs => setitem "class" (VStr (join " " (set_order (without_empty cs))))
    | _ => raise (TypeError "unsupported operand type(s) for -")
    end
  else ret tt.

(** Lines 38-42: the style stage. *)
Definition normalise_style : M unit :=
  style <~ pop "style" (VStr "") ;;
  if truthy style then
    style <~ match style with
             | VDict d =>
                 parts <~ lift (Json.sequence (map style_item d)) ;;
                 ret (VStr (join ";" parts))
             | _ => ret style
             end ;;
    setitem "style" style
  else ret tt.

(** [transform(attributes)]: the first component is the caller's mapping
    after the call, the second what the call returns or raises. *)
Definition transform : M (dict_of string) :=
  normalise_classes ;;;
  normalise_style ;;;
  attributes <~ current ;;
  lift (transform_pairs attributes attributes []).

(** *** Readings of the stages

    Closed forms the properties below compare the code with. *)

(** [key.replace(color, colour)], the respelling made by line 47. *)
Definition british : string -> string := replace "color" "colour".

(** [key.replace(colour, color)], the respelling made by line 66. *)
Definition american : string -> string := replace "colour" "color".

(** One pass over a key, left to right: a double underscore becomes an
    underscore, any other underscore a hyphen, a space becomes [space],
    every other character stays.  With [space] a space this is the stage
    as the specification words it: nothing else changes. *)
Fixpoint underscore_pass (space : ascii) (key : string) : string :=
  match key with
  | "" => ""
  | String c rest =>
      if Ascii.eqb c "_" then
        match rest with
        | String c' rest' =>
            if Ascii.eqb c' "_" then String "_" (underscore_pass space rest')
            else String "-" (underscore_pass space rest)
        | "" => "-"
        end
      else if Ascii.eqb c " " then String space (underscore_pass space rest)
      else String c (underscore_pass space rest)
  end.

(** The mapping after the class stage. *)
Definition after_classes (attributes : Attributes) : Attributes :=
  match dict_get "classes" attributes with
  | Some (VSet (c :: cs)) =>
      dict_setitem "class" (VStr (join " " (set_order (without_empty (c :: cs)))))
        (dict_remove "classes" attributes)
  | _ => dict_remove "classes" attributes
  end.

(** Lines 35-42 as one step. *)
Definition stages : M unit := normalise_classes ;;; normalise_style.

(** ** Elements *)

(** A constructed node, by class: a [TextElement] holds its string, a
    [Container] and a [Void] their class's tag and their transformed
    attributes, a [Component] its composition root. *)
Inductive Element : Type :=
| TextElement (content : string)
| Container (tag : string) (attributes : dict_of string) (content : list Element)
| Void (tag : string) (attributes : dict_of string)
| ElementGroup (content : list Element)
| Component (content : Element).

(** [textwrap.indent(text, prefix, predicate)] *)
Definition indent (text prefix : string) (predicate : string -> bool) : string :=
  join "" (map (fun line => if predicate line then prefix ++ line else line)
               (splitlines text)).

(** The attribute segment of an open tag: a space and the [k=v] pairs
    joined by spaces, nothing for an empty mapping. *)
Definition attribute_segment (attributes : dict_of string) : string :=
  match attributes with
  | [] => ""
  | _ => " " ++ join " " (map (fun kv => fst kv ++ "=" ++ snd kv) attributes)
  end.

(** [self.serialise(minify)], by class. *)
Fixpoint serialise (self : Element) (minify : bool) : string :=
  match self with
  | TextElement content => content
  | Container tag attributes content =>
      "<" ++ tag ++ attribute_segment attributes ++ ">"
      ++ (if minify then "" else nl)
      ++ indent (join (if minify then "" else nl)
                      (map (fun child => serialise child minify) content))
                "    " (fun _ => negb minify)
      ++ (if minify then "" else nl)
      ++ "</" ++ tag ++ ">"
  | Void tag attributes => "<" ++ tag ++ attribute_segment attributes ++ " />"
  | ElementGroup content =>
      join (if minify then "" else nl)
           (map (fun child => serialise child minify) content)
  | Component content => serialise content minify
  end.

(** The default of the [minify] parameter in each class's signature of
    [serialise]; [None] where the signature gives none. *)
Definition serialise_default (self : Element) : option bool :=
  match self with
  | TextElement _ => Some true
  | Container _ _ _ => Some true
  | Void _ _ => Some true
  | ElementGroup _ => None
  | Component _ => Some true
  end.

(** A call [self.serialise()] ([minify = None]) or [self.serialise(b)]
    ([minify = Some b]): a parameter with neither argument nor default is
    a [TypeError]. *)
Definition call_serialise (self : Element) (minify : option bool) : result string :=
  match minify with
  | Some b => Ok (serialise self b)
  | None =>
      match serialise_default self with
      | Some b => Ok (serialise self b)
      | None =>
          Raise (TypeError "serialise() missing 1 required positional argument: 'minify'")
      end
  end.


(** ** Construction *)

(** One item of the content passed to a constructor or to a call. *)
Inductive content_item : Type :=
| ItemElement (e : Element)
| ItemStr (s : string).

Definition Content : Type := list content_item.

(** [str(n)] for a length *)
Definition str_of_nat (n : nat) : string := NilZero.string_of_uint (Nat.to_uint n).

(** [TextElement.set_content]: [self] is the [content] slot before the
    call, [None] while it has never been assigned; the result is the
    string assigned to the slot. *)
Definition TextElement_set_content (self : option string) (content : Content)
  : result string :=
  match content with
  | [] => Raise (IndexError "list index out of range")
  | ItemStr s :: _ =>
      if negb (List.length content =? 1)%nat then
        Raise (TypeError ("Text content must be a single string (got "
                          ++ str_of_nat (List.length content) ++ " items)"))
      else Ok s
  | ItemElement _ :: _ =>
      match self with
      | None => Raise (AttributeError "content")
      | Some _ => Raise (TypeError "Text content must be a single string (got 'str')")
      end
  end.

(** [TextElement.apply_attributes] *)
Definition TextElement_apply_attributes (attributes : Attributes) : result unit :=
  match attributes with
  | [] => Ok tt
  | _ => Raise (TypeError "Text content cannot have attributes")
  end.

(** The constructor call of [TextElement] with positional [content] and keyword [attributes] *)
Definition new_TextElement (content : Content) (attributes : Attributes) : result Element :=
  _ <- TextElement_apply_attributes attributes ;;
  s <- TextElement_set_content None content ;;
  Ok (TextElement s).

(** [Element.__call__] on a constructed [TextElement]: the content reset *)
Definition reset_TextElement (self : string) (content : Content) : result Element :=
  s <- TextElement_set_content (Some self) content ;;
  Ok (TextElement s).

(** The content coercion of [Container.set_content] and
    [ElementGroup.set_content]. *)
Definition coerce (content : Content) : list Element :=
  map (fun child => match child with
                    | ItemElement e => e
                    | ItemStr s => TextElement s
                    end) content.

(** The constructor call of a [Container] class with tag [tag] *)
Definition new_Container (tag : string) (content : Content) (attributes : Attributes)
  : result Element :=
  attributes <- snd (transform attributes) ;;
  Ok (Container tag attributes (coerce content)).

(** The constructor call of a [Void] class with tag [tag] *)
Definition new_Void (tag : string) (content : Content) (attributes : Attributes)
  : result Element :=
  attributes <- snd (transform attributes) ;;
  match content with
  | [] => Ok (Void tag attributes)
  | _ => Raise (TypeError "Void elements cannot have content")
  end.

(** The constructor call of [ElementGroup] *)
Definition new_ElementGroup (content : Content) (attributes : Attributes) : result Element :=
  match attributes with
  | [] => Ok (ElementGroup (coerce content))
  | _ => Raise (TypeError "Element groups cannot have attributes")
  end.

(** ** Further readings and calls

    What the later properties speak of. *)

(** Every character is printable ASCII and none is the double quote. *)
Fixpoint quote_free_ascii (s : string) : bool :=
  match s with
  | "" => true
  | String c s' =>
      let n := nat_of_ascii c in
      (32 <=? n)%nat && (n <=? 126)%nat && negb (n =? 34)%nat && quote_free_ascii s'
  end.

(** Every character is printable ASCII, and none is the double quote or
    the backslash. *)
Fixpoint plain (s : string) : bool :=
  match s with
  | "" => true
  | String c s' =>
      let n := nat_of_ascii c in
      (32 <=? n)%nat && (n <=? 126)%nat && negb (n =? 34)%nat && negb (n =? 92)%nat
      && plain s'
  end.

(** No tag, attribute segment or text of the tree holds a line feed. *)
Fixpoint newline_free (e : Element) : bool :=
  match e with
  | TextElement content => (count lf content =? 0)%nat
  | Container tag attributes content =>
      (count lf tag =? 0)%nat && (count lf (attribute_segment attributes) =? 0)%nat
      && forallb newline_free content
  | Void tag attributes =>
      (count lf tag =? 0)%nat && (count lf (attribute_segment attributes) =? 0)%nat
  | ElementGroup content => forallb newline_free content
  | Component content => newline_free content
  end.

(** What a content item contributes to the serialisation of its parent. *)
Definition item_text (minify : bool) (item : content_item) : string :=
  match item with
  | ItemElement e => serialise e minify
  | ItemStr s => s
  end.

(** The pairs the loop of lines 43-67 stores, in the order of [items],
    before any of them overwrites another. *)
Fixpoint stored_pairs (attributes : Attributes) (items : list (string * pyval))
  : result (list (string * string)) :=
  match items with
  | [] => Ok []
  | kv :: rest =>
      p <- transform_pair attributes kv ;;
      ps <- stored_pairs attributes rest ;;
      Ok match p with
         | Some q => q :: ps
         | None => ps
         end
  end.

(** An entry the loop can take: a key that is neither empty nor one
    underscore nor [classes], with a string for its value. *)
Definition string_entry (kv : string * pyval) : bool :=
  negb (String.eqb (fst kv) "") && negb (String.eqb (fst kv) "_")
  && negb (String.eqb (fst kv) "classes")
  && match snd kv with
     | VStr _ => true
     | _ => false
     end.

(** * Properties *)

(** ** Dictionaries *)

Section DictFacts.
Context {V : Type}.
Implicit Types (d : dict_of V) (k : string) (v : V).

Lemma dict_get_remove_same k d : dict_get k (dict_remove k d) = None.
Proof.
  induction d as [|[k' v'] d IH]; simpl; auto.
  destruct (String.eqb k k') eqn:E; simpl; auto.
  rewrite E; auto.
Qed.

Lemma dict_get_remove_other k k' d :
  k <> k' -> dict_get k (dict_remove k' d) = dict_get k d.
Proof.
  intros Hne. induction d as [|[k0 v0] d IH]; simpl; auto.
  destruct (String.eqb k' k0) eqn:E; simpl.
  - apply String.eqb_eq in E. subst k0.
    apply String.eqb_neq in Hne. rewrite Hne. exact IH.
  - rewrite IH. reflexivity.
Qed.

Lemma dict_get_setitem_same k v d : dict_get k (dict_setitem k v d) = Some v.
Proof.
  induction d as [|[k' v'] d IH]; simpl.
  - rewrite String.eqb_refl. reflexivity.
  - destruct (String.eqb k k') eqn:E; simpl; rewrite E; auto.
Qed.

Lemma dict_get_setitem_other k k' v d :
  k <> k' -> dict_get k (dict_setitem k' v d) = dict_get k d.
Proof.
  intros Hne. induction d as [|[k0 v0] d IH]; simpl.
  - apply String.eqb_neq in Hne. rewrite Hne. reflexivity.
  - destruct (String.eqb k' k0) eqn:E; simpl.
    + apply String.eqb_eq in E. subst k0.
      apply String.eqb_neq in Hne. rewrite Hne. reflexivity.
    + rewrite IH. reflexivity.
Qed.

Lemma dict_contains_remove_same k d : dict_contains k (dict_remove k d) = false.
Proof. unfold dict_contains. rewrite dict_get_remove_same. reflexivity. Qed.

Lemma dict_contains_remove_other k k' d :
  k <> k' -> dict_contains k (dict_remove k' d) = dict_contains k d.
Proof. intros H. unfold dict_contains. rewrite dict_get_remove_other; auto. Qed.

Lemma dict_contains_setitem_same k v d : dict_contains k (dict_setitem k v d) = true.
Proof. unfold dict_contains. rewrite dict_get_setitem_same. reflexivity. Qed.

Lemma dict_contains_setitem_other k k' v d :
  k <> k' -> dict_contains k (dict_setitem k' v d) = dict_contains k d.
Proof. intros H. unfold dict_contains. rewrite dict_get_setitem_other; auto. Qed.
End DictFacts.

(** ** The mapping after each stage *)

Lemma normalise_classes_state (attributes : Attributes) :
  fst (normalise_classes attributes) = after_classes attributes.
Proof.
  unfold normalise_classes, after_classes, bind, pop, setitem, ret, raise.
  destruct (dict_get "classes" attributes) as [[| b | z | s | l | d | [|c cs]]|]; simpl;
    try reflexivity.
  - destruct b; reflexivity.
  - destruct (Z.eqb z 0); reflexivity.
  - destruct (String.eqb s ""); reflexivity.
  - destruct l; reflexivity.
  - destruct d; reflexivity.
Qed.

(** The style stage removes [style] and may write it back. *)
Lemma normalise_style_state (attributes : Attributes) :
  fst (normalise_style attributes) = dict_remove "style" attributes
  \/ exists v, fst (normalise_style attributes)
               = dict_setitem "style" v (dict_remove "style" attributes).
Proof.
  unfold normalise_style, bind, pop, setitem, ret, raise, lift.
  destruct (dict_get "style" attributes) as [[| b | z | s | l | d | l]|]; simpl;
    try (left; reflexivity).
  - destruct b; simpl; [right; eexists; reflexivity | left; reflexivity].
  - destruct (Z.eqb z 0); simpl; [left; reflexivity | right; eexists; reflexivity].
  - destruct (String.eqb s ""); simpl; [left; reflexivity | right; eexists; reflexivity].
  - destruct l; simpl; [left; reflexivity | right; eexists; reflexivity].
  - destruct d as [|kv d]; [simpl; left; reflexivity|].
    set (r := Json.sequence (map style_item (kv :: d))).
    cbn [truthy]. destruct r; simpl;
      [right; eexists; reflexivity | left; reflexivity].
  - destruct l; simpl; [left; reflexivity | right; eexists; reflexivity].
Qed.

(** The loop leaves the mapping alone: after the call it is what the two
    stages made of it, the second stage running only when the first did
    not raise. *)
Lemma transform_state (attributes : Attributes) :
  fst (transform attributes) = after_classes attributes
  \/ fst (transform attributes) = fst (normalise_style (after_classes attributes)).
Proof.
  unfold transform, bind, current, lift.
  rewrite <- normalise_classes_state.
  destruct (normalise_classes attributes) as [a1 [[]|e]]; simpl; [|left; reflexivity].
  destruct (normalise_style a1) as [a2 [[]|e]]; simpl; right; reflexivity.
Qed.

(** ** Serialising a void element *)

(** C2 (amended): the [Void] node with tag [img] built from the attribute
    [src] with value [a.png] serialises, minified or pretty, to the tag
    with the value in plain double quotes. *)
Theorem void_img_serialise (minify : bool) :
  rbind (new_Void "img" [] [("src", VStr "a.png")])
        (fun e => call_serialise e (Some minify))
  = Ok ("<img src=" ++ dq ++ "a.png" ++ dq ++ " />").
Proof. destruct minify; reflexivity. Qed.

(** ** The default of [minify] *)

(** Every class but [ElementGroup] declares [minify = True]. *)
Lemma call_serialise_default (self : Element) :
  (forall content, self <> ElementGroup content) ->
  call_serialise self None = Ok (serialise self true).
Proof.
  intros H. destruct self; try reflexivity.
  exfalso. apply (H content). reflexivity.
Qed.

(** C3: the code departs from the claim at an element group, whose
    [serialise] declares no default: the call without an argument
    raises. *)
Theorem group_serialise_without_argument (content : list Element) :
  call_serialise (ElementGroup content) None
  = Raise (TypeError "serialise() missing 1 required positional argument: 'minify'").
Proof. reflexivity. Qed.

(** ** Text content *)

(** Construction of a text node succeeds exactly on one string. *)
Lemma new_TextElement_ok (content : Content) (e : Element) :
  new_TextElement content [] = Ok e <-> exists s, content = [ItemStr s] /\ e = TextElement s.
Proof.
  unfold new_TextElement, TextElement_set_content. simpl. split.
  - destruct content as [|[e0|s] [|i rest]]; simpl; try discriminate.
    intros H. injection H as <-. exists s. auto.
  - intros [s [-> ->]]. reflexivity.
Qed.

(** C5: the code departs from the claim on two of the three failing
    cases.  With no content item the first check indexes the empty list;
    with one item that is not a string the message is built from a slot
    that was never assigned.  Only the case of several items, the first a
    string, raises the typed failure. *)
Theorem text_content_failures (e : Element) (s t : string) :
  new_TextElement [] [] = Raise (IndexError "list index out of range")
  /\ new_TextElement [ItemElement e] [] = Raise (AttributeError "content")
  /\ new_TextElement [ItemStr s; ItemStr t] []
     = Raise (TypeError "Text content must be a single string (got 2 items)")
  /\ reset_TextElement s [] = Raise (IndexError "list index out of range").
Proof. repeat split. Qed.

(** ** String conversion *)


(** ** Facts about [replace] *)

Lemma drop_empty n : drop n "" = "".
Proof. destruct n; reflexivity. Qed.

Lemma replace_from_skip old new n s :
  replace_from old new n s = replace_from old new 0 (drop n s).
Proof.
  revert n. induction s as [|c s IH]; intros n.
  - rewrite drop_empty. destruct n; reflexivity.
  - destruct n as [|n]; [reflexivity|]. simpl. apply IH.
Qed.

Lemma prefix_cons_inv old c s :
  prefix old (String c s) = true ->
  old = "" \/ exists old', old = String c old' /\ prefix old' s = true.
Proof.
  destruct old as [|a old']; simpl; [auto|].
  destruct (ascii_dec a c) as [->|]; [|discriminate].
  intros H. right. exists old'. auto.
Qed.

Lemma prefix_cons a old c s :
  prefix (String a old) (String c s) = if Ascii.eqb a c then prefix old s else false.
Proof.
  cbn [prefix].
  destruct (ascii_dec a c) as [E|E]; destruct (Ascii.eqb_spec a c);
    try reflexivity; contradiction.
Qed.

Lemma prefix_app old s : prefix (old ++ "") (old ++ s) = true.
Proof.
  induction old as [|a old IH]; simpl.
  - destruct s; reflexivity.
  - destruct (ascii_dec a a); [exact IH | congruence].
Qed.

Lemma append_empty_r s : s ++ "" = s.
Proof. induction s as [|c s IH]; simpl; [|rewrite IH]; reflexivity. Qed.

Lemma append_assoc (s t u : string) : (s ++ t) ++ u = s ++ t ++ u.
Proof. induction s as [|c s IH]; simpl; [|rewrite IH]; reflexivity. Qed.

Lemma drop_app old s : drop (String.length old) (old ++ s) = s.
Proof. induction old as [|a old IH]; simpl; [destruct s; reflexivity | exact IH]. Qed.

(** An occurrence at the head is replaced, and the scan goes on after it. *)
Lemma replace_match a old new s :
  replace (String a old) new (String a old ++ s)
  = new ++ replace (String a old) new s.
Proof.
  unfold replace.
  change (String a old ++ s) with (String a (old ++ s)).
  cbn [replace_from]. 
  pose proof (prefix_app (String a old) s) as H. rewrite append_empty_r in H.
  change (String a old ++ s) with (String a (old ++ s)) in H. rewrite H.
  rewrite replace_from_skip. cbn [String.length pred].
  rewrite drop_app. reflexivity.
Qed.

(** No occurrence at the head: the character is kept. *)
Lemma replace_nomatch a old new c s :
  prefix (String a old) (String c s) = false ->
  replace (String a old) new (String c s) = String c (replace (String a old) new s).
Proof. intros H. unfold replace. cbn [replace_from]. rewrite H. reflexivity. Qed.

Lemma replace_empty a old new : replace (String a old) new "" = "".
Proof. reflexivity. Qed.

(** A character other than the first of [old] starts no occurrence. *)
Lemma replace_other_head a old new c s :
  a <> c ->
  replace (String a old) new (String c s) = String c (replace (String a old) new s).
Proof.
  intros H. apply replace_nomatch. simpl.
  destruct (ascii_dec a c); [contradiction | reflexivity].
Qed.

(** Replacing one character. *)
Lemma replace_char_hit a new s :
  replace (String a "") new (String a s) = new ++ replace (String a "") new s.
Proof. exact (replace_match a "" new s). Qed.

(** ** The underscore stage *)

Lemma hyphenate_double s : hyphenate ("__" ++ s) = String "_" (hyphenate s).
Proof.
  unfold hyphenate. rewrite replace_match.
  change (" " ++ replace "__" " " s) with (String " " (replace "__" " " s)).
  rewrite replace_other_head by discriminate.
  rewrite replace_char_hit. reflexivity.
Qed.

Lemma hyphenate_single c s :
  c <> "_"%char -> hyphenate (String "_" (String c s)) = String "-" (hyphenate (String c s)).
Proof.
  intros H. unfold hyphenate.
  rewrite (replace_nomatch "_" "_" " " "_" (String c s)).
  2:{ rewrite !prefix_cons. rewrite (Ascii.eqb_sym "_" c).
       apply Ascii.eqb_neq in H. rewrite H. reflexivity. }
  rewrite replace_char_hit.
  change ("-" ++ ?x) with (String "-" x).
  rewrite replace_other_head by discriminate. reflexivity.
Qed.

Lemma hyphenate_last : hyphenate "_" = "-".
Proof. reflexivity. Qed.

Lemma hyphenate_space s : hyphenate (String " " s) = String "_" (hyphenate s).
Proof.
  unfold hyphenate.
  rewrite replace_other_head by discriminate.
  rewrite replace_other_head by discriminate.
  rewrite replace_char_hit. reflexivity.
Qed.

Lemma hyphenate_other c s :
  c <> "_"%char -> c <> " "%char -> hyphenate (String c s) = String c (hyphenate s).
Proof.
  intros H1 H2. unfold hyphenate.
  rewrite replace_other_head by congruence.
  rewrite replace_other_head by congruence.
  rewrite replace_other_head by congruence. reflexivity.
Qed.

(** The three replacements of line 62 amount to one pass in which a
    space, the placeholder, comes out as an underscore. *)
Lemma hyphenate_pass key : hyphenate key = underscore_pass "_" key.
Proof.
  enough (H : hyphenate key = underscore_pass "_" key
              /\ forall c, hyphenate (String c key) = underscore_pass "_" (String c key))
    by apply H.
  induction key as [|d key [IH1 IH2]].
  - split; [reflexivity|]. intros c.
    destruct (Ascii.eqb_spec c "_") as [->|H1]; [reflexivity|].
    destruct (Ascii.eqb_spec c " ") as [->|H2]; [reflexivity|].
    rewrite hyphenate_other by assumption. simpl.
    apply Ascii.eqb_neq in H1, H2. rewrite H1, H2. reflexivity.
  - split; [apply IH2|]. intros c.
    destruct (Ascii.eqb_spec c "_") as [->|H1].
    + destruct (Ascii.eqb_spec d "_") as [->|H3].
      * change (String "_" (String "_" key)) with ("__" ++ key).
        rewrite hyphenate_double, IH1. reflexivity.
      * rewrite hyphenate_single by assumption. rewrite IH2.
        cbn [underscore_pass]. apply Ascii.eqb_neq in H3.
        change (Ascii.eqb "_" "_") with true. cbn iota. rewrite H3. reflexivity.
    + destruct (Ascii.eqb_spec c " ") as [->|H2].
      * rewrite hyphenate_space, IH2. reflexivity.
      * rewrite hyphenate_other by assumption. rewrite IH2.
        apply Ascii.eqb_neq in H1, H2.
        change (underscore_pass "_" (String c (String d key)))
          with (if Ascii.eqb c "_" then
                  (if Ascii.eqb d "_" then String "_" (underscore_pass "_" key)
                   else String "-" (underscore_pass "_" (String d key)))
                else if Ascii.eqb c " "
                     then String "_" (underscore_pass "_" (String d key))
                     else String c (underscore_pass "_" (String d key))).
        rewrite H1, H2. reflexivity.
Qed.

(** On a key without a space the choice of [space] does not matter. *)
Lemma underscore_pass_no_space sp1 sp2 key :
  contains " " key = false -> underscore_pass sp1 key = underscore_pass sp2 key.
Proof.
  enough (H : (contains " " key = false ->
               underscore_pass sp1 key = underscore_pass sp2 key)
              /\ forall c, contains " " (String c key) = false ->
                   underscore_pass sp1 (String c key) = underscore_pass sp2 (String c key))
    by apply H.
  assert (Hc : forall c s, contains " " (String c s) = false ->
                 Ascii.eqb c " " = false /\ contains " " s = false).
  { intros c s H. simpl in H. apply orb_false_iff in H as [H1 H2]. split; [|exact H2].
    destruct (Ascii.eqb_spec c " ") as [->|]; [|reflexivity].
    simpl in H1. destruct s; discriminate. }
  induction key as [|d key [IH1 IH2]].
  - split; [reflexivity|]. intros c H. apply Hc in H as [H _].
    simpl. rewrite H. reflexivity.
  - split; [apply IH2|]. intros c H. apply Hc in H as [H H'].
    pose proof (Hc _ _ H') as [_ H''].
    change (underscore_pass ?sp (String c (String d key)))
      with (if Ascii.eqb c "_" then
              (if Ascii.eqb d "_" then String "_" (underscore_pass sp key)
               else String "-" (underscore_pass sp (String d key)))
            else if Ascii.eqb c " "
                 then String sp (underscore_pass sp (String d key))
                 else String c (underscore_pass sp (String d key))).
    rewrite H, (IH1 H''), (IH2 d H'). reflexivity.
Qed.

(** Indexing from the end and dropping the last character. *)
Lemma index_from_end_last s c : index_from_end (s ++ String c "") 1 = Some c.
Proof.
  unfold index_from_end.
  assert (L : String.length (s ++ String c "") = S (String.length s)).
  { induction s; simpl; auto. }
  rewrite L. simpl. rewrite Nat.sub_0_r. clear L.
  induction s as [|a s IH]; simpl; auto.
Qed.

Lemma index_from_end_second s c d :
  index_from_end (s ++ String c (String d "")) 2 = Some c.
Proof.
  unfold index_from_end.
  assert (L : String.length (s ++ String c (String d "")) = S (S (String.length s))).
  { induction s; simpl; auto. }
  rewrite L. simpl. rewrite Nat.sub_0_r. clear L.
  induction s as [|a s IH]; simpl; auto.
Qed.

Lemma drop_last_app s c : drop_last (s ++ String c "") = s.
Proof.
  unfold drop_last.
  assert (L : String.length (s ++ String c "") = S (String.length s)).
  { induction s; simpl; auto. }
  rewrite L. simpl. rewrite Nat.sub_0_r. clear L.
  induction s as [|a s IH]; simpl; [reflexivity | rewrite IH; reflexivity].
Qed.

Lemma strip_single s c :
  c <> "_"%char -> strip_trailing_underscore (s ++ String c "_") = Ok (s ++ String c "").
Proof.
  intros H. unfold strip_trailing_underscore.
  change (s ++ String c "_") with (s ++ String c "" ++ "_").
  rewrite <- append_assoc. rewrite index_from_end_last.
  rewrite append_assoc. change (String c "" ++ "_") with (String c (String "_" "")).
  rewrite index_from_end_second.
  apply Ascii.eqb_neq in H. rewrite H. simpl.
  change (String c "_") with (String c "" ++ "_").
  rewrite <- append_assoc, drop_last_app. reflexivity.
Qed.

Lemma strip_double s : strip_trailing_underscore (s ++ "__") = Ok (s ++ "__").
Proof.
  unfold strip_trailing_underscore.
  rewrite index_from_end_second.
  change (s ++ "__") with (s ++ "_" ++ "_") at 1.
  rewrite <- append_assoc, index_from_end_last. reflexivity.
Qed.

Lemma strip_none s c :
  c <> "_"%char -> strip_trailing_underscore (s ++ String c "") = Ok (s ++ String c "").
Proof.
  intros H. unfold strip_trailing_underscore. rewrite index_from_end_last.
  apply Ascii.eqb_neq in H. rewrite H. reflexivity.
Qed.

(** C8 (amended): the underscore stage turns each double underscore into
    an underscore, each remaining underscore into a hyphen and each space
    into an underscore, and changes no other character; so on a key
    without a space nothing but underscores changes.  Before it, a key of
    two characters or more that ends in an underscore not preceded by
    another loses that underscore, and a key that ends otherwise is
    kept. *)
Theorem underscore_stage (key : string) :
  hyphenate key = underscore_pass "_" key
  /\ (contains " " key = false -> hyphenate key = underscore_pass " " key)
  /\ (forall s c, c <> "_"%char -> key = s ++ String c "_" ->
        strip_trailing_underscore key = Ok (s ++ String c ""))
  /\ (forall s, key = s ++ "__" -> strip_trailing_underscore key = Ok key)
  /\ (forall s c, c <> "_"%char -> key = s ++ String c "" ->
        strip_trailing_underscore key = Ok key).
Proof.
  split; [apply hyphenate_pass|]. split.
  { intros H. rewrite hyphenate_pass. apply underscore_pass_no_space. exact H. }
  split; [intros s c H ->; apply strip_single; exact H|].
  split; [intros s ->; apply strip_double|].
  intros s c H ->. apply strip_none. exact H.
Qed.

(** ** Newlines and indentation of a container *)

Lemma count_app c s t : count c (s ++ t) = count c s + count c t.
Proof. induction s as [|a s IH]; simpl; [|rewrite IH]; lia. Qed.

Lemma join_empty_cons x xs : join "" (x :: xs) = x ++ join "" xs.
Proof. destruct xs; simpl; [rewrite append_empty_r|]; reflexivity. Qed.

Lemma join_cons2 sep x y zs : join sep (x :: y :: zs) = x ++ sep ++ join sep (y :: zs).
Proof. reflexivity. Qed.

(** The lines of a text, put together again, are the text. *)
Lemma join_splitlines s : join "" (splitlines s) = s.
Proof.
  enough (H : join "" (splitlines s) = s
              /\ forall c, join "" (splitlines (String c s)) = String c s) by apply H.
  induction s as [|d s [IH1 IH2]].
  - split; [reflexivity|]. intros c. simpl. destruct (is_linebreak c); reflexivity.
  - split; [apply IH2|]. intros c.
    change (splitlines (String c (String d s)))
      with (if is_linebreak c then
              if (nat_of_ascii c =? 13)%nat && (nat_of_ascii d =? 10)%nat
              then String c (String d "") :: splitlines s
              else String c "" :: splitlines (String d s)
            else match splitlines (String d s) with
                 | [] => [String c ""]
                 | l :: ls => String c l :: ls
                 end).
    destruct (is_linebreak c).
    + destruct ((nat_of_ascii c =? 13)%nat && (nat_of_ascii d =? 10)%nat);
        rewrite join_empty_cons; [rewrite IH1 | rewrite IH2]; reflexivity.
    + specialize (IH2 d). destruct (splitlines (String d s)) as [|l ls].
      * simpl in IH2. discriminate.
      * rewrite join_empty_cons in *. simpl. rewrite IH2. reflexivity.
Qed.

(** Without lines to prefix, [indent] gives the text back. *)
Lemma indent_off text prefix : indent text prefix (fun _ => false) = text.
Proof.
  unfold indent. rewrite map_id. apply join_splitlines.
Qed.

Lemma count_join_empty c ls : count c (join "" ls) = list_sum (map (count c) ls).
Proof.
  induction ls as [|x xs IH]; [reflexivity|].
  rewrite join_empty_cons, count_app, IH. reflexivity.
Qed.

(** A prefix without the character adds no occurrence of it. *)
Lemma count_indent c text prefix predicate :
  count c prefix = 0 -> count c (indent text prefix predicate) = count c text.
Proof.
  intros H. unfold indent.
  rewrite <- (join_splitlines text) at 2. rewrite !count_join_empty, map_map.
  f_equal. apply map_ext. intros line.
  destruct (predicate line); [rewrite count_app, H|]; reflexivity.
Qed.

Lemma count_join_none c ls :
  Forall (fun l => count c l = 0) ls -> count c (join "" ls) = 0.
Proof.
  intros H. rewrite count_join_empty.
  induction H as [|x xs Hx _ IH]; simpl; [|rewrite Hx, IH]; reflexivity.
Qed.

Lemma count_join_nl ls :
  Forall (fun l => count lf l = 0) ls -> count lf (join nl ls) = List.length ls - 1.
Proof.
  induction 1 as [|x xs Hx Hxs IH]; [reflexivity|].
  destruct xs as [|y zs]; [simpl; exact Hx|].
  rewrite join_cons2, !count_app, Hx, IH. simpl. lia.
Qed.

Lemma splitlines_line_app l rest :
  no_linebreak l = true -> splitlines (l ++ nl ++ rest) = (l ++ nl) :: splitlines rest.
Proof.
  induction l as [|a l IH]; intros H.
  - destruct rest; reflexivity.
  - simpl in H. apply andb_true_iff in H as [Ha Hl].
    apply negb_true_iff in Ha.
    change (String a l ++ nl ++ rest) with (String a (l ++ nl ++ rest)).
    cbn [splitlines]. rewrite Ha, (IH Hl). reflexivity.
Qed.

Lemma splitlines_one_line l : one_line l = true -> splitlines l = [l].
Proof.
  unfold one_line. intros H. apply andb_true_iff in H as [Hne H].
  induction l as [|a l IH]; [discriminate|].
  simpl in H. apply andb_true_iff in H as [Ha Hl]. apply negb_true_iff in Ha.
  cbn [splitlines]. rewrite Ha.
  destruct l as [|b l]; [reflexivity|].
  rewrite IH by (auto; reflexivity). reflexivity.
Qed.

(** Every line of a block of lines gets the prefix. *)
Lemma indent_lines prefix ls :
  Forall (fun l => one_line l = true) ls ->
  indent (join nl ls) prefix (fun _ => true) = join nl (map (append prefix) ls).
Proof.
  induction 1 as [|x xs Hx Hxs IH]; [reflexivity|].
  destruct xs as [|y zs].
  - unfold indent. simpl. rewrite (splitlines_one_line x Hx). reflexivity.
  - cbn [map]. rewrite !join_cons2.
    unfold indent in *. rewrite splitlines_line_app.
    2:{ unfold one_line in Hx. apply andb_true_iff in Hx. apply Hx. }
    cbn [map]. rewrite join_empty_cons, IH.
    rewrite !append_assoc. reflexivity.
Qed.

(** C9 (amended): for a container whose tag and attribute segment hold no
    newline and whose [n] children serialise without a newline, the
    minified serialisation holds no newline; the pretty one holds exactly
    [n + 1] newlines when [n >= 1], and 2 when there is no child; and when
    each child's pretty serialisation is one line (not empty, no
    line-breaking character), the pretty serialisation is the open tag, a
    newline, the children's lines each behind four spaces and joined by
    newlines, a newline, and the close tag. *)
Theorem container_newlines (tag : string) (attributes : dict_of string)
  (content : list Element) :
  count lf tag = 0 ->
  count lf (attribute_segment attributes) = 0 ->
  Forall (fun child => forall minify, count lf (serialise child minify) = 0) content ->
  count lf (serialise (Container tag attributes content) true) = 0
  /\ (content <> [] ->
      count lf (serialise (Container tag attributes content) false)
      = List.length content + 1)
  /\ (content = [] ->
      count lf (serialise (Container tag attributes content) false) = 2)
  /\ (Forall (fun child => one_line (serialise child false) = true) content ->
      serialise (Container tag attributes content) false
      = "<" ++ tag ++ attribute_segment attributes ++ ">" ++ nl
        ++ join nl (map (fun child => "    " ++ serialise child false) content)
        ++ nl ++ "</" ++ tag ++ ">").
Proof.
  intros Htag Hseg Hchildren.
  assert (Hmin : Forall (fun l => count lf l = 0)
                   (map (fun child => serialise child true) content)).
  { apply Forall_map. revert Hchildren. apply Forall_impl. intros c H. apply H. }
  assert (Hpretty : Forall (fun l => count lf l = 0)
                      (map (fun child => serialise child false) content)).
  { apply Forall_map. revert Hchildren. apply Forall_impl. intros c H. apply H. }
  assert (Hcount : count lf (serialise (Container tag attributes content) false)
                   = List.length content - 1 + 2).
  { cbn [serialise negb].
    rewrite !count_app, count_indent by reflexivity.
    rewrite count_join_nl by exact Hpretty.
    rewrite Htag, Hseg, length_map. simpl. lia. }
  split; [|split; [|split]].
  - cbn [serialise negb]. rewrite indent_off.
    rewrite !count_app, count_join_none by exact Hmin.
    rewrite Htag, Hseg. reflexivity.
  - intros Hne. rewrite Hcount. destruct content; [contradiction | simpl; lia].
  - intros ->. rewrite Hcount. reflexivity.
  - intros Hlines. cbn [serialise negb].
    rewrite indent_lines, map_map.
    + reflexivity.
    + apply Forall_map. exact Hlines.
Qed.

(** ** The British spelling of a key *)

Lemma prefix_true_split old s :
  prefix old s = true -> s = old ++ drop (String.length old) s.
Proof.
  revert s. induction old as [|a old IH]; intros s H; [reflexivity|].
  destruct s as [|c s]; [discriminate|].
  rewrite prefix_cons in H. destruct (Ascii.eqb_spec a c) as [->|]; [|discriminate].
  simpl. f_equal. apply IH. exact H.
Qed.

Lemma prefix_empty s : prefix "" s = true.
Proof. destruct s; reflexivity. Qed.

Lemma contains_prefix sub s : prefix sub s = true -> contains sub s = true.
Proof. intros H. destruct s; cbn [contains]; rewrite H; reflexivity. Qed.

Lemma contains_cons sub c s : contains sub s = true -> contains sub (String c s) = true.
Proof. intros H. cbn [contains]. rewrite H. apply orb_true_r. Qed.

Lemma british_match r : british ("color" ++ r) = "colour" ++ british r.
Proof. exact (replace_match "c" "olor" "colour" r). Qed.

Lemma british_cases s :
  (exists r, s = "color" ++ r /\ british s = "colour" ++ british r)
  \/ s = ""
  \/ (exists c s', s = String c s' /\ prefix "color" s = false /\ british s = String c (british s')).
Proof.
  destruct s as [|c s']; [auto|].
  destruct (prefix "color" (String c s')) eqn:E.
  - left. apply prefix_true_split in E. eexists. split; [exact E|].
    rewrite E at 1. apply british_match.
  - right. right. exists c, s'. repeat split; auto.
    apply replace_nomatch. exact E.
Qed.

(** A key either keeps its spelling or comes out with [colour] in it. *)
Lemma british_fixed_or_colour s : british s = s \/ contains "colour" (british s) = true.
Proof.
  induction s as [|c s IH]; [left; reflexivity|].
  destruct (british_cases (String c s)) as [[r [_ E]]|[E|[c' [s' [E1 [_ E2]]]]]].
  - right. rewrite E. apply contains_prefix. exact (prefix_app "colour" (british r)).
  - discriminate.
  - injection E1 as <- <-. rewrite E2. destruct IH as [IH|IH].
    + left. rewrite IH. reflexivity.
    + right. apply contains_cons. exact IH.
Qed.

Lemma british_head_c s : exists t, british (String "c" s) = String "c" t.
Proof.
  destruct (british_cases (String "c" s)) as [[r [_ E]]|[E|[c' [s' [E1 [_ E2]]]]]].
  - rewrite E. eexists. reflexivity.
  - discriminate.
  - injection E1 as <- <-. rewrite E2. eexists. reflexivity.
Qed.

(** A pattern without the letter c matches at the head of the respelt
    key exactly when it matches at the head of the key. *)
Lemma british_prefix p s : count "c" p = 0 -> prefix p (british s) = prefix p s.
Proof.
  revert s. induction p as [|a p IH]; intros s H.
  - rewrite !prefix_empty. reflexivity.
  - cbn [count] in H. destruct (Ascii.eqb_spec "c" a) as [|Ha]; [discriminate H|].
    destruct s as [|d s]; [reflexivity|].
    destruct (Ascii.eqb_spec "c" d) as [<-|Hd].
    + destruct (british_head_c s) as [t ->]. rewrite !prefix_cons.
      apply not_eq_sym, Ascii.eqb_neq in Ha. rewrite Ha. reflexivity.
    + unfold british. rewrite replace_other_head by exact Hd. fold british.
      rewrite !prefix_cons, IH by exact H. reflexivity.
Qed.

(** Respelling twice is respelling once. *)
Lemma british_idempotent s : british (british s) = british s.
Proof.
  remember (String.length s) as n eqn:Hn.
  assert (Hle : String.length s <= n) by lia. clear Hn.
  revert s Hle. induction n as [|n IH]; intros s Hle.
  - destruct s; [reflexivity | simpl in Hle; lia].
  - destruct (british_cases s) as [[r [E1 E2]]|[E|[c [s' [E1 [E2 E3]]]]]].
    + rewrite E2.
      assert (Hr : String.length r <= n).
      { rewrite E1 in Hle. simpl in Hle. lia. }
      change ("colour" ++ british r)
        with (String "c" (String "o" (String "l" (String "o" (String "u"
                (String "r" (british r))))))).
      unfold british at 1. rewrite replace_nomatch.
      2:{ rewrite !prefix_cons. reflexivity. }
      rewrite !replace_other_head by discriminate.
      fold british. rewrite (IH r Hr). reflexivity.
    + rewrite E. reflexivity.
    + rewrite E3. unfold british at 1. rewrite replace_nomatch.
      * fold british. rewrite IH; [reflexivity|]. rewrite E1 in Hle. simpl in Hle. lia.
      * fold british. rewrite E1 in E2. rewrite prefix_cons in *.
        destruct (Ascii.eqb "c" c); [|reflexivity].
        rewrite british_prefix by reflexivity. exact E2.
Qed.

Lemma unnormalised_colour_idempotent key :
  unnormalised_colour (unnormalised_colour key) = unnormalised_colour key.
Proof.
  unfold unnormalised_colour.
  destruct (startswith key "data-") eqn:E; [rewrite E; reflexivity|].
  destruct (startswith (replace "color" "colour" key) "data-"); [reflexivity|].
  apply british_idempotent.
Qed.

(** ** The two stages before the loop *)

Section DictMoreFacts.
Context {V : Type}.
Implicit Types (d : dict_of V) (k : string) (v : V).

Lemma dict_remove_comm k k' d :
  dict_remove k (dict_remove k' d) = dict_remove k' (dict_remove k d).
Proof.
  induction d as [|[k0 v0] d IH]; simpl; auto.
  destruct (String.eqb k' k0) eqn:E1; destruct (String.eqb k k0) eqn:E2;
    simpl; rewrite ?E1, ?E2, IH; reflexivity.
Qed.

Lemma dict_setitem_remove k k' v d :
  k <> k' -> dict_setitem k v (dict_remove k' d) = dict_remove k' (dict_setitem k v d).
Proof.
  intros Hne. induction d as [|[k0 v0] d IH]; simpl.
  - apply not_eq_sym, String.eqb_neq in Hne. rewrite Hne. reflexivity.
  - destruct (String.eqb k' k0) eqn:E1; destruct (String.eqb k k0) eqn:E2;
      simpl; rewrite ?E1, ?E2, ?IH; try reflexivity.
    apply String.eqb_eq in E1, E2. congruence.
Qed.

Lemma dict_contains_remove_inv k k' d :
  dict_contains k (dict_remove k' d) = true -> dict_contains k d = true.
Proof.
  destruct (string_dec k k') as [->|Hne].
  - rewrite dict_contains_remove_same. discriminate.
  - rewrite dict_contains_remove_other by exact Hne. auto.
Qed.

Lemma dict_wf_remove k d : dict_wf d = true -> dict_wf (dict_remove k d) = true.
Proof.
  induction d as [|[k0 v0] d IH]; simpl; auto.
  intros H. apply andb_true_iff in H as [H1 H2].
  destruct (String.eqb k k0); [auto|]. simpl.
  rewrite (IH H2), andb_true_r.
  destruct (dict_contains k0 (dict_remove k d)) eqn:E; [|reflexivity].
  apply dict_contains_remove_inv in E. rewrite E in H1. discriminate.
Qed.

Lemma dict_wf_setitem k v d : dict_wf d = true -> dict_wf (dict_setitem k v d) = true.
Proof.
  induction d as [|[k0 v0] d IH]; simpl; auto.
  intros H. apply andb_true_iff in H as [H1 H2].
  destruct (String.eqb k k0) eqn:E; simpl.
  - rewrite H1, H2. reflexivity.
  - rewrite (IH H2), andb_true_r.
    rewrite dict_contains_setitem_other; [exact H1|].
    apply String.eqb_neq in E. congruence.
Qed.

Lemma dict_contains_cons k k0 v0 d :
  dict_contains k ((k0, v0) :: d) = String.eqb k k0 || dict_contains k d.
Proof. unfold dict_contains. simpl. destruct (String.eqb k k0); reflexivity. Qed.
End DictMoreFacts.

Lemma transform_unfold (attributes : Attributes) :
  transform attributes
  = (fst (stages attributes),
     rbind (snd (stages attributes))
       (fun _ => transform_pairs (fst (stages attributes)) (fst (stages attributes)) [])).
Proof.
  unfold transform, stages, bind, current, lift.
  destruct (normalise_classes attributes) as [a1 [[]|e]]; [|reflexivity].
  destruct (normalise_style a1) as [a2 [[]|e]]; reflexivity.
Qed.

Lemma normalise_classes_remove k (a : Attributes) :
  k <> "classes" -> k <> "class" ->
  normalise_classes (dict_remove k a)
  = (dict_remove k (fst (normalise_classes a)), snd (normalise_classes a)).
Proof.
  intros H1 H2. unfold normalise_classes, bind, pop, setitem, ret, raise.
  rewrite dict_get_remove_other by congruence.
  rewrite (dict_remove_comm "classes" k).
  destruct (dict_get "classes" a) as [[| b | z | s | l | d | [|c cs]]|]; simpl;
    try reflexivity.
  - destruct b; reflexivity.
  - destruct (Z.eqb z 0); reflexivity.
  - destruct (String.eqb s ""); reflexivity.
  - destruct l; reflexivity.
  - destruct d; reflexivity.
  - rewrite dict_setitem_remove by congruence. reflexivity.
Qed.

Lemma normalise_style_remove k (a : Attributes) :
  k <> "style" ->
  normalise_style (dict_remove k a)
  = (dict_remove k (fst (normalise_style a)), snd (normalise_style a)).
Proof.
  intros H1. unfold normalise_style, bind, pop, setitem, ret, raise, lift.
  rewrite dict_get_remove_other by congruence.
  rewrite (dict_remove_comm "style" k).
  destruct (dict_get "style" a) as [[| b | z | s | l | d | l]|]; simpl;
    try reflexivity.
  - destruct b; simpl; rewrite ?dict_setitem_remove by congruence; reflexivity.
  - destruct (Z.eqb z 0); simpl; rewrite ?dict_setitem_remove by congruence; reflexivity.
  - destruct (String.eqb s ""); simpl; rewrite ?dict_setitem_remove by congruence;
      reflexivity.
  - destruct l; simpl; rewrite ?dict_setitem_remove by congruence; reflexivity.
  - destruct d as [|kv d]; [reflexivity|].
    set (r := Json.sequence (map style_item (kv :: d))).
    cbn [truthy]. destruct r; simpl; rewrite ?dict_setitem_remove by congruence;
      reflexivity.
  - destruct l; simpl; rewrite ?dict_setitem_remove by congruence; reflexivity.
Qed.

(** Removing a key the stages do not touch commutes with them. *)
Lemma stages_remove k (a : Attributes) :
  k <> "classes" -> k <> "class" -> k <> "style" ->
  stages (dict_remove k a) = (dict_remove k (fst (stages a)), snd (stages a)).
Proof.
  intros H1 H2 H3. unfold stages, bind.
  rewrite normalise_classes_remove by assumption.
  destruct (normalise_classes a) as [a1 [[]|e]]; simpl; [|reflexivity].
  rewrite normalise_style_remove by assumption.
  destruct (normalise_style a1) as [a2 [[]|e]]; reflexivity.
Qed.

(** The mapping after the stages, when neither raised. *)
Lemma stages_ok_state (a : Attributes) :
  snd (stages a) = Ok tt -> fst (stages a) = fst (normalise_style (after_classes a)).
Proof.
  unfold stages, bind. rewrite <- normalise_classes_state.
  destruct (normalise_classes a) as [a1 [[]|e]]; simpl; [|discriminate].
  destruct (normalise_style a1) as [a2 [[]|e]]; reflexivity.
Qed.

Lemma after_classes_get k (a : Attributes) :
  k <> "classes" -> k <> "class" -> dict_get k (after_classes a) = dict_get k a.
Proof.
  intros H1 H2. unfold after_classes.
  destruct (dict_get "classes" a) as [[| | | | | | [|c cs]]|];
    try (apply dict_get_remove_other; assumption).
  rewrite dict_get_setitem_other by assumption.
  apply dict_get_remove_other; assumption.
Qed.

Lemma normalise_style_get k (a : Attributes) :
  k <> "style" -> dict_get k (fst (normalise_style a)) = dict_get k a.
Proof.
  intros H. destruct (normalise_style_state a) as [E|[v E]]; rewrite E.
  - apply dict_get_remove_other; assumption.
  - rewrite dict_get_setitem_other by assumption.
    apply dict_get_remove_other; assumption.
Qed.

Lemma stages_get k (a : Attributes) :
  k <> "classes" -> k <> "class" -> k <> "style" ->
  snd (stages a) = Ok tt -> dict_get k (fst (stages a)) = dict_get k a.
Proof.
  intros H1 H2 H3 Hok. rewrite (stages_ok_state a Hok).
  rewrite normalise_style_get by assumption. apply after_classes_get; assumption.
Qed.

Lemma after_classes_wf (a : Attributes) :
  dict_wf a = true -> dict_wf (after_classes a) = true.
Proof.
  intros H. unfold after_classes.
  destruct (dict_get "classes" a) as [[| | | | | | [|c cs]]|];
    try (apply dict_wf_remove; assumption).
  apply dict_wf_setitem, dict_wf_remove. exact H.
Qed.

Lemma stages_wf (a : Attributes) :
  snd (stages a) = Ok tt -> dict_wf a = true -> dict_wf (fst (stages a)) = true.
Proof.
  intros Hok H. rewrite (stages_ok_state a Hok).
  pose proof (after_classes_wf a H) as H1.
  destruct (normalise_style_state (after_classes a)) as [E|[v E]]; rewrite E.
  - apply dict_wf_remove. exact H1.
  - apply dict_wf_setitem, dict_wf_remove. exact H1.
Qed.

Lemma normalise_style_dict (a : Attributes) d parts :
  dict_get "style" a = Some (VDict d) -> d <> [] ->
  Json.sequence (map style_item d) = Ok parts ->
  fst (normalise_style a)
  = dict_setitem "style" (VStr (join ";" parts)) (dict_remove "style" a).
Proof.
  intros Hst Hd Hseq. unfold normalise_style, bind, pop, setitem, ret, raise, lift.
  rewrite Hst. destruct d as [|kv d]; [contradiction|].
  cbn [truthy]. rewrite Hseq. reflexivity.
Qed.

(** ** The caller's mapping after the call *)

Lemma normalise_style_falsy (a : Attributes) :
  truthy match dict_get "style" a with Some v => v | None => VStr "" end = false ->
  normalise_style a = (dict_remove "style" a, Ok tt).
Proof.
  intros H. unfold normalise_style, bind, pop, ret. rewrite H. reflexivity.
Qed.

Lemma normalise_style_other (a : Attributes) v :
  dict_get "style" a = Some v -> truthy v = true -> (forall d, v <> VDict d) ->
  normalise_style a = (dict_setitem "style" v (dict_remove "style" a), Ok tt).
Proof.
  intros Hst Ht Hd. unfold normalise_style, bind, pop, setitem, ret.
  rewrite Hst, Ht. destruct v; try reflexivity.
  exfalso. apply (Hd d). reflexivity.
Qed.

Lemma stages_ok_style (a : Attributes) :
  snd (stages a) = Ok tt -> snd (normalise_style (after_classes a)) = Ok tt.
Proof.
  intros Hok. unfold stages, bind in Hok. rewrite <- normalise_classes_state.
  destruct (normalise_classes a) as [a1 [[]|e]]; [|discriminate Hok].
  cbn [fst]. destruct (normalise_style a1) as [a2 [[]|e]]; [reflexivity | discriminate Hok].
Qed.

Lemma stages_style (a : Attributes) :
  snd (stages a) = Ok tt ->
  fst (stages a) = fst (normalise_style (after_classes a))
  /\ dict_get "style" (after_classes a) = dict_get "style" a.
Proof.
  intros Hok. split; [apply stages_ok_state; exact Hok|].
  apply after_classes_get; discriminate.
Qed.

(** C1 (amended): [transform] mutates the caller's mapping, and only by
    its class and style normalisation.  After the call the mapping has no
    [classes] entry, and every entry under a key other than [classes],
    [class] and [style] is as it was.  A non-empty [classes] set has been
    written under [class] as its names other than the empty string, in
    some order, joined by spaces; without a non-empty [classes] set the
    [class] entry is as it was.  When the call returns, a [style] that is
    absent or falsy has left no [style] entry, a non-empty [style]
    dictionary has been replaced by its [prop:value] items joined by
    semicolons, and any other [style] is as it was. *)
Theorem transform_mutates_only_class_and_style (attributes : Attributes) :
  dict_contains "classes" (fst (transform attributes)) = false
  /\ (forall k, k <> "classes" -> k <> "class" -> k <> "style" ->
        dict_get k (fst (transform attributes)) = dict_get k attributes)
  /\ (forall c cs, dict_get "classes" attributes = Some (VSet (c :: cs)) ->
        exists names,
          Permutation names (without_empty (c :: cs))
          /\ dict_get "class" (fst (transform attributes))
             = Some (VStr (join " " names)))
  /\ ((forall c cs, dict_get "classes" attributes <> Some (VSet (c :: cs))) ->
      dict_get "class" (fst (transform attributes)) = dict_get "class" attributes)
  /\ (forall out, snd (transform attributes) = Ok out ->
        match dict_get "style" attributes with
        | Some (VDict (kv :: d)) =>
            exists parts,
              Json.sequence (map style_item (kv :: d)) = Ok parts
              /\ dict_get "style" (fst (transform attributes))
                 = Some (VStr (join ";" parts))
        | Some v =>
            dict_get "style" (fst (transform attributes))
            = if truthy v then Some v else None
        | None => dict_get "style" (fst (transform attributes)) = None
        end).
Proof.
  assert (Hstyle : forall out, snd (transform attributes) = Ok out ->
            match dict_get "style" attributes with
            | Some (VDict (kv :: d)) =>
                exists parts,
                  Json.sequence (map style_item (kv :: d)) = Ok parts
                  /\ dict_get "style" (fst (transform attributes))
                     = Some (VStr (join ";" parts))
            | Some v =>
                dict_get "style" (fst (transform attributes))
                = if truthy v then Some v else None
            | None => dict_get "style" (fst (transform attributes)) = None
            end).
  { intros out Hrun.
    rewrite transform_unfold in *. cbn [fst snd] in *.
    destruct (snd (stages attributes)) as [[]|e] eqn:Hok; [|discriminate].
    destruct (stages_style attributes Hok) as [-> Hst].
    pose proof (stages_ok_style attributes Hok) as Hs.
    set (a1 := after_classes attributes) in *.
    assert (Hother : forall v, dict_get "style" a1 = Some v -> (forall d, v <> VDict d) ->
                       dict_get "style" (fst (normalise_style a1))
                       = if truthy v then Some v else None).
    { intros v Hv Hd. destruct (truthy v) eqn:Ht.
      - rewrite (normalise_style_other a1 v Hv Ht Hd). apply dict_get_setitem_same.
      - rewrite normalise_style_falsy by (rewrite Hv; exact Ht).
        apply dict_get_remove_same. }
    destruct (dict_get "style" attributes) as [v|] eqn:Hget.
    - destruct v as [ | b | z | s | l | [|kv d] | l ];
        try (apply Hother; [exact Hst | discriminate]).
      + rewrite normalise_style_falsy by (rewrite Hst; reflexivity).
        apply dict_get_remove_same.
      + destruct (Json.sequence (map style_item (kv :: d))) as [parts|e] eqn:Hseq.
        * exists parts. split; [reflexivity|].
          rewrite (normalise_style_dict a1 (kv :: d) parts Hst); [|discriminate|exact Hseq].
          apply dict_get_setitem_same.
        * exfalso. unfold normalise_style, bind, pop, lift in Hs.
          rewrite Hst in Hs. cbn [truthy] in Hs. rewrite Hseq in Hs. discriminate Hs.
    - rewrite normalise_style_falsy by (rewrite Hst; reflexivity).
      apply dict_get_remove_same. }
  assert (Hc : dict_contains "classes" (after_classes attributes) = false).
  { unfold after_classes.
    destruct (dict_get "classes" attributes) as [[| | | | | | [|c cs]]|];
      try apply dict_contains_remove_same.
    rewrite dict_contains_setitem_other by discriminate.
    apply dict_contains_remove_same. }
  assert (Hk : forall k, k <> "classes" -> k <> "class" ->
                 dict_get k (after_classes attributes) = dict_get k attributes).
  { intros k H1 H2. apply after_classes_get; assumption. }
  assert (Hs : forall k, k <> "style" ->
                 dict_get k (fst (normalise_style (after_classes attributes)))
                 = dict_get k (after_classes attributes)).
  { intros k H. apply normalise_style_get. exact H. }
  assert (Hclass : forall c cs, dict_get "classes" attributes = Some (VSet (c :: cs)) ->
                     exists names,
                       Permutation names (without_empty (c :: cs))
                       /\ dict_get "class" (after_classes attributes)
                          = Some (VStr (join " " names))).
  { intros c cs E. exists (set_order (without_empty (c :: cs))).
    split; [apply set_order_perm|].
    unfold after_classes. rewrite E. apply dict_get_setitem_same. }
  assert (Hkeep : (forall c cs, dict_get "classes" attributes <> Some (VSet (c :: cs))) ->
                    dict_get "class" (after_classes attributes)
                    = dict_get "class" attributes).
  { intros Hno. unfold after_classes.
    destruct (dict_get "classes" attributes) as [[| | | | | | [|c cs]]|] eqn:E;
      try (apply dict_get_remove_other; discriminate).
    exfalso. apply (Hno c cs). reflexivity. }
  split; [|split; [|split; [|split; [|exact Hstyle]]]];
    destruct (transform_state attributes) as [E|E]; rewrite E.
  - exact Hc.
  - unfold dict_contains. rewrite Hs by discriminate. exact Hc.
  - intros k H1 H2 _. apply Hk; assumption.
  - intros k H1 H2 H3. rewrite Hs by assumption. apply Hk; assumption.
  - exact Hclass.
  - intros c cs Hcs. rewrite Hs by discriminate. apply Hclass; assumption.
  - exact Hkeep.
  - intros Hno. rewrite Hs by discriminate. apply Hkeep; assumption.
Qed.

(** ** The loop over the pairs *)

Lemma skipped_fixed (a : Attributes) k : unnormalised_colour k = k -> skipped a k = false.
Proof. intros H. unfold skipped. rewrite H, String.eqb_refl. reflexivity. Qed.

Lemma transform_pair_skipped (a : Attributes) k v :
  skipped a k = true -> transform_pair a (k, v) = Ok None.
Proof. intros H. unfold transform_pair. rewrite H. reflexivity. Qed.

Lemma transform_pair_processed (a : Attributes) k v p :
  skipped a k = false -> transform_pair a (k, v) = Ok p ->
  exists key value,
    output_key k = Ok key /\ encode_value v = Ok value /\ p = Some (key, value).
Proof.
  intros H. unfold transform_pair. rewrite H.
  destruct (encode_value v) as [value|]; simpl; [|discriminate].
  destruct (output_key k) as [key|]; simpl; [|discriminate].
  intros E. injection E as <-. eauto.
Qed.

(** The loop reads the mapping only through the test of line 49. *)
Lemma pairs_ext (a a' : Attributes) items new :
  (forall j, dict_contains j items = true -> skipped a j = skipped a' j) ->
  transform_pairs a items new = transform_pairs a' items new.
Proof.
  revert new. induction items as [|[j w] items IH]; intros new H; [reflexivity|].
  cbn [transform_pairs]. unfold transform_pair.
  rewrite <- (H j) by (rewrite dict_contains_cons, String.eqb_refl; reflexivity).
  destruct (skipped a j); simpl.
  - apply IH. intros j' Hj'. apply H. rewrite dict_contains_cons, Hj'. apply orb_true_r.
  - destruct (encode_value w); simpl; [|reflexivity].
    destruct (output_key j); simpl; [|reflexivity].
    apply IH. intros j' Hj'. apply H. rewrite dict_contains_cons, Hj'. apply orb_true_r.
Qed.

(** A pair that is passed over could as well be absent. *)
Lemma pairs_remove_skipped (a : Attributes) k items new :
  skipped a k = true ->
  transform_pairs a (dict_remove k items) new = transform_pairs a items new.
Proof.
  intros Hk. revert new. induction items as [|[j w] items IH]; intros new; [reflexivity|].
  cbn [dict_remove transform_pairs].
  destruct (String.eqb_spec k j) as [<-|Hne].
  - rewrite transform_pair_skipped by exact Hk. simpl. apply IH.
  - cbn [transform_pairs]. destruct (transform_pair a (j, w)); simpl; [apply IH | reflexivity].
Qed.

(** Pairs stored under other keys leave the entry of a key as it is. *)
Lemma pairs_get_frame (a : Attributes) items new out K :
  transform_pairs a items new = Ok out ->
  (forall j, dict_contains j items = true -> skipped a j = true \/ output_key j <> Ok K) ->
  dict_get K out = dict_get K new.
Proof.
  revert new. induction items as [|[j w] items IH]; intros new Hrun H.
  - simpl in Hrun. injection Hrun as <-. reflexivity.
  - cbn [transform_pairs] in Hrun.
    assert (Hrest : forall j', dict_contains j' items = true ->
                      skipped a j' = true \/ output_key j' <> Ok K).
    { intros j' Hj'. apply H. rewrite dict_contains_cons, Hj'. apply orb_true_r. }
    destruct (transform_pair a (j, w)) as [p|] eqn:Ep; simpl in Hrun; [|discriminate].
    destruct (skipped a j) eqn:Es.
    + rewrite transform_pair_skipped in Ep by exact Es. injection Ep as <-.
      apply (IH _ Hrun Hrest).
    + destruct (transform_pair_processed a j w p Es Ep) as [key [value [E1 [_ ->]]]].
      rewrite (IH _ Hrun Hrest). apply dict_get_setitem_other.
      destruct (H j) as [Hs|Hk].
      * rewrite dict_contains_cons, String.eqb_refl. reflexivity.
      * congruence.
      * intros ->. apply Hk. exact E1.
Qed.

Lemma pairs_contains_mono (a : Attributes) items new out K :
  transform_pairs a items new = Ok out ->
  dict_contains K new = true -> dict_contains K out = true.
Proof.
  revert new. induction items as [|[j w] items IH]; intros new Hrun H.
  - simpl in Hrun. injection Hrun as <-. exact H.
  - cbn [transform_pairs] in Hrun.
    destruct (transform_pair a (j, w)) as [[[key value]|]|]; simpl in Hrun;
      [| |discriminate].
    + apply (IH _ Hrun). destruct (string_dec K key) as [->|Hne].
      * apply dict_contains_setitem_same.
      * rewrite dict_contains_setitem_other by exact Hne. exact H.
    + apply (IH _ Hrun H).
Qed.

Lemma dict_get_In {V : Type} k (v : V) d : dict_get k d = Some v -> In (k, v) d.
Proof.
  induction d as [|[k0 v0] d IH]; simpl; [discriminate|].
  destruct (String.eqb_spec k k0) as [->|_].
  - intros E. injection E as ->. left. reflexivity.
  - intros E. right. apply IH. exact E.
Qed.

(** A pair that is not passed over leaves its output key in the result. *)
Lemma pairs_hit (a : Attributes) items new out k v :
  transform_pairs a items new = Ok out ->
  In (k, v) items -> skipped a k = false ->
  exists key value,
    output_key k = Ok key /\ encode_value v = Ok value /\ dict_contains key out = true.
Proof.
  revert new. induction items as [|[j w] items IH]; intros new Hrun Hin Hs; [contradiction|].
  cbn [transform_pairs] in Hrun.
  destruct (transform_pair a (j, w)) as [p|] eqn:Ep; simpl in Hrun; [|discriminate].
  destruct Hin as [E|Hin].
  - injection E as -> ->.
    destruct (transform_pair_processed a k v p Hs Ep) as [key [value [E1 [E2 ->]]]].
    exists key, value. repeat split; auto.
    apply (pairs_contains_mono _ _ _ _ _ Hrun). apply dict_contains_setitem_same.
  - apply (IH _ Hrun Hin Hs).
Qed.

(** The entry of an output key that a single processed pair is stored
    under holds that pair's value. *)
Lemma pairs_get_unique (a : Attributes) items new out k v K value :
  transform_pairs a items new = Ok out ->
  dict_wf items = true ->
  dict_get k items = Some v ->
  skipped a k = false ->
  output_key k = Ok K ->
  encode_value v = Ok value ->
  (forall j, dict_contains j items = true -> j <> k ->
             skipped a j = true \/ output_key j <> Ok K) ->
  dict_get K out = Some value.
Proof.
  revert new. induction items as [|[j w] items IH];
    intros new Hrun Hwf Hget Hs HK Hv H; [discriminate|].
  cbn [transform_pairs] in Hrun. simpl in Hwf, Hget.
  apply andb_true_iff in Hwf as [Hj Hwf]. apply negb_true_iff in Hj.
  destruct (transform_pair a (j, w)) as [p|] eqn:Ep; simpl in Hrun; [|discriminate].
  destruct (String.eqb_spec k j) as [<-|Hne].
  - injection Hget as ->.
    destruct (transform_pair_processed a k v p Hs Ep) as [key [val [E1 [E2 ->]]]].
    assert (key = K) by congruence. assert (val = value) by congruence. subst.
    rewrite (pairs_get_frame _ _ _ _ K Hrun).
    + apply dict_get_setitem_same.
    + intros j' Hj'. apply H.
      * rewrite dict_contains_cons, Hj'. apply orb_true_r.
      * intros ->. rewrite Hj in Hj'. discriminate.
  - apply (IH _ Hrun Hwf Hget Hs HK Hv).
    intros j' Hj' Hne'. apply H; [|exact Hne'].
    rewrite dict_contains_cons, Hj'. apply orb_true_r.
Qed.

(** ** A key given in both spellings *)

(** What holds of a key [k] that is respelt by line 47 while its
    respelling is a key of the mapping too. *)
Lemma colour_pair_general (attributes : Attributes) (k : string) (v' : pyval) :
  startswith k "data-" = false ->
  replace "color" "colour" k <> k ->
  dict_contains k attributes = true ->
  dict_get (replace "color" "colour" k) attributes = Some v' ->
  snd (transform attributes) = snd (transform (dict_remove k attributes))
  /\ forall out, snd (transform attributes) = Ok out ->
       exists key value,
         output_key (replace "color" "colour" k) = Ok key
         /\ encode_value v' = Ok value
         /\ dict_contains key out = true
         /\ (dict_wf attributes = true ->
             (forall j, dict_contains j (fst (transform attributes)) = true ->
                        j <> replace "color" "colour" k ->
                        skipped (fst (transform attributes)) j = true
                        \/ output_key j <> Ok key) ->
             dict_get key out = Some value).
Proof.
  intros Hdata Hne Hk Hk'.
  set (k' := replace "color" "colour" k) in *.
  assert (Hun : unnormalised_colour k = k').
  { unfold unnormalised_colour. rewrite Hdata. reflexivity. }
  assert (Hun' : unnormalised_colour k' = k').
  { rewrite <- Hun. apply unnormalised_colour_idempotent. }
  assert (K1 : k <> "classes" /\ k <> "class" /\ k <> "style").
  { repeat split; intros ->; apply Hne; reflexivity. }
  destruct K1 as [K1 [K2 K3]].
  assert (K' : k' <> "classes" /\ k' <> "class" /\ k' <> "style").
  { destruct (british_fixed_or_colour k) as [E|E]; [contradiction|].
    unfold british in E. fold k' in E.
    repeat split; intros E'; rewrite E' in E; discriminate E. }
  destruct K' as [K1' [K2' K3']].
  rewrite !transform_unfold. cbn [fst snd].
  rewrite stages_remove by assumption. cbn [fst snd].
  destruct (snd (stages attributes)) as [[]|e] eqn:Hok; cbn [rbind];
    [|split; [reflexivity | discriminate]].
  set (a2 := fst (stages attributes)).
  assert (Hk2 : dict_contains k' a2 = true).
  { unfold dict_contains, a2. rewrite stages_get by assumption. rewrite Hk'. reflexivity. }
  assert (Hskip : skipped a2 k = true).
  { unfold skipped. rewrite Hun, Hk2.
    apply not_eq_sym, String.eqb_neq in Hne. rewrite Hne. reflexivity. }
  split.
  - rewrite <- (pairs_remove_skipped a2 k a2 [] Hskip).
    apply pairs_ext. intros j Hj.
    assert (Hjk : j <> k).
    { intros ->. rewrite dict_contains_remove_same in Hj. discriminate. }
    unfold skipped. f_equal. symmetry. apply dict_contains_remove_other.
    intros E. apply Hne. fold k'. rewrite <- Hun, <- E.
    apply unnormalised_colour_idempotent.
  - intros out Hrun.
    assert (Hget : dict_get k' a2 = Some v').
    { unfold a2. rewrite stages_get by assumption. exact Hk'. }
    pose proof (skipped_fixed a2 k' Hun') as Hs.
    destruct (pairs_hit a2 a2 [] out k' v' Hrun (dict_get_In _ _ _ Hget) Hs)
      as [key [value [E1 [E2 E3]]]].
    exists key, value. repeat split; auto.
    intros Hwf Huniq.
    apply (pairs_get_unique a2 a2 [] out k' v' key value Hrun); auto.
    apply stages_wf; assumption.
Qed.

Lemma contains_skip sub c s :
  prefix sub (String c s) = false -> contains sub (String c s) = contains sub s.
Proof. intros H. cbn [contains]. rewrite H. reflexivity. Qed.

Lemma american_match r : american ("colour" ++ r) = "color" ++ american r.
Proof. exact (replace_match "c" "olour" "color" r). Qed.

Lemma american_cases s :
  (exists r, s = "colour" ++ r /\ american s = "color" ++ american r)
  \/ s = ""
  \/ (exists c s', s = String c s' /\ prefix "colour" s = false
                   /\ american s = String c (american s')).
Proof.
  destruct s as [|c s']; [auto|].
  destruct (prefix "colour" (String c s')) eqn:E.
  - left. apply prefix_true_split in E. eexists. split; [exact E|].
    rewrite E at 1. apply american_match.
  - right. right. exists c, s'. repeat split; auto.
    apply replace_nomatch. exact E.
Qed.

Lemma american_head_c s : exists t, american (String "c" s) = String "c" t.
Proof.
  destruct (american_cases (String "c" s)) as [[r [_ E]]|[E|[c' [s' [E1 [_ E2]]]]]].
  - rewrite E. eexists. reflexivity.
  - discriminate.
  - injection E1 as <- <-. rewrite E2. eexists. reflexivity.
Qed.

Lemma american_prefix p s : count "c" p = 0 -> prefix p (american s) = prefix p s.
Proof.
  revert s. induction p as [|a p IH]; intros s H.
  - rewrite !prefix_empty. reflexivity.
  - cbn [count] in H. destruct (Ascii.eqb_spec "c" a) as [|Ha]; [discriminate H|].
    destruct s as [|d s]; [reflexivity|].
    destruct (Ascii.eqb_spec "c" d) as [<-|Hd].
    + destruct (american_head_c s) as [t ->]. rewrite !prefix_cons.
      apply not_eq_sym, Ascii.eqb_neq in Ha. rewrite Ha. reflexivity.
    + unfold american. rewrite replace_other_head by exact Hd. fold american.
      rewrite !prefix_cons, IH by exact H. reflexivity.
Qed.

(** After the respelling of line 66 no [colour] is left. *)
Lemma american_no_colour s : contains "colour" (american s) = false.
Proof.
  remember (String.length s) as n eqn:Hn.
  assert (Hle : String.length s <= n) by lia. clear Hn.
  revert s Hle. induction n as [|n IH]; intros s Hle.
  - destruct s; [reflexivity | simpl in Hle; lia].
  - destruct (american_cases s) as [[r [E1 E2]]|[E|[c [s' [E1 [E2 E3]]]]]].
    + rewrite E2.
      assert (Hr : String.length r <= n).
      { rewrite E1 in Hle. simpl in Hle. lia. }
      change ("color" ++ american r)
        with (String "c" (String "o" (String "l" (String "o" (String "r" (american r)))))).
      rewrite !contains_skip by (rewrite !prefix_cons; reflexivity).
      apply IH. exact Hr.
    + rewrite E. reflexivity.
    + rewrite E3. rewrite contains_skip.
      * apply IH. rewrite E1 in Hle. simpl in Hle. lia.
      * rewrite E1 in E2. rewrite prefix_cons in *.
        destruct (Ascii.eqb "c" c); [|reflexivity].
        rewrite american_prefix by reflexivity. exact E2.
Qed.

(** The key a pair is stored under, spelt out: the stripped key, passed
    once for its underscores, and respelt unless it then starts with
    [data-]. *)
Lemma output_key_explicit key out :
  output_key key = Ok out ->
  exists stripped,
    strip_trailing_underscore key = Ok stripped
    /\ out = (if startswith (underscore_pass "_" stripped) "data-"
              then underscore_pass "_" stripped
              else replace "colour" "color" (underscore_pass "_" stripped)).
Proof.
  unfold output_key.
  destruct (strip_trailing_underscore key) as [stripped|]; [|discriminate].
  cbn [rbind]. intros E. injection E as <-. exists stripped. split; [reflexivity|].
  unfold normalise_colour. rewrite hyphenate_pass.
  destruct (startswith (underscore_pass "_" stripped) "data-"); reflexivity.
Qed.

(** C6 (amended): for every key [k] that does not start with [data-] and
    differs from its respelling [k.replace(color, colour)], both being
    keys of the mapping, the result of the transform is the one it has
    without [k], so nothing in it derives from [k]; and when the transform
    returns, the respelt key's value, encoded, is in the result under the
    renamed key: the respelt key with a single trailing underscore
    stripped and its underscores hyphenated, in which every [colour] is
    replaced by [color] so that none is left, unless the hyphenated key
    starts with [data-], which keeps its spelling.  The entry holds that
    value as long as no other processed key of the mapping is stored under
    the same key. *)
Theorem colour_pair (attributes : Attributes) (k : string) (v' : pyval) :
  startswith k "data-" = false ->
  replace "color" "colour" k <> k ->
  dict_contains k attributes = true ->
  dict_get (replace "color" "colour" k) attributes = Some v' ->
  snd (transform attributes) = snd (transform (dict_remove k attributes))
  /\ forall out, snd (transform attributes) = Ok out ->
       exists stripped key value,
         strip_trailing_underscore (replace "color" "colour" k) = Ok stripped
         /\ key = (if startswith (underscore_pass "_" stripped) "data-"
                   then underscore_pass "_" stripped
                   else replace "colour" "color" (underscore_pass "_" stripped))
         /\ (startswith (underscore_pass "_" stripped) "data-" = false ->
             contains "colour" key = false)
         /\ encode_value v' = Ok value
         /\ dict_contains key out = true
         /\ (dict_wf attributes = true ->
             (forall j, dict_contains j (fst (transform attributes)) = true ->
                        j <> replace "color" "colour" k ->
                        skipped (fst (transform attributes)) j = true
                        \/ output_key j <> Ok key) ->
             dict_get key out = Some value).
Proof.
  intros Hdata Hne Hk Hk'.
  destruct (colour_pair_general attributes k v' Hdata Hne Hk Hk') as [Herased Hemitted].
  split; [exact Herased|].
  intros out Hrun.
  destruct (Hemitted out Hrun) as [key [value [Hkey [Hvalue [Hin Hget]]]]].
  destruct (output_key_explicit _ _ Hkey) as [stripped [Hstrip Hform]].
  exists stripped, key, value.
  split; [exact Hstrip|]. split; [exact Hform|]. split.
  { intros Hnodata. rewrite Hform, Hnodata. apply american_no_colour. }
  repeat split; assumption.
Qed.

(** C7: [data_color] is respelt by the early check, so with [data_colour]
    present it is passed over and the result is the one without it; the
    key [data_colour] starts with [data-] once hyphenated, so it keeps its
    spelling and, when the transform returns, [data-colour] is a key of
    the result, holding the encoded value as long as no other processed
    key is stored under it. *)
Theorem data_colour_two_stages (attributes : Attributes) (v' : pyval) :
  dict_contains "data_color" attributes = true ->
  dict_get "data_colour" attributes = Some v' ->
  unnormalised_colour "data_color" = "data_colour"
  /\ skipped attributes "data_color" = true
  /\ snd (transform attributes) = snd (transform (dict_remove "data_color" attributes))
  /\ startswith "data_colour" "data-" = false
  /\ startswith (hyphenate "data_colour") "data-" = true
  /\ output_key "data_colour" = Ok "data-colour"
  /\ forall out, snd (transform attributes) = Ok out ->
       dict_contains "data-colour" out = true
       /\ exists value,
            encode_value v' = Ok value
            /\ (dict_wf attributes = true ->
                (forall j, dict_contains j (fst (transform attributes)) = true ->
                           j <> "data_colour" ->
                           skipped (fst (transform attributes)) j = true
                           \/ output_key j <> Ok "data-colour") ->
                dict_get "data-colour" out = Some value).
Proof.
  intros Hk Hk'.
  assert (Hne : replace "color" "colour" "data_color" <> "data_color") by discriminate.
  destruct (colour_pair_general attributes "data_color" v' eq_refl Hne Hk Hk')
    as [H1 H2].
  split; [reflexivity|]. split.
  { unfold skipped, dict_contains.
    change (unnormalised_colour "data_color") with "data_colour".
    rewrite Hk'. reflexivity. }
  split; [exact H1|]. do 3 (split; [reflexivity|]).
  intros out Hrun. destruct (H2 out Hrun) as [key [value [E1 [E2 [E3 E4]]]]].
  change (output_key (replace "color" "colour" "data_color")) with (Ok "data-colour" : result string) in E1.
  injection E1 as <-. split; [exact E3|].
  exists value. split; [exact E2 | exact E4].
Qed.

(** ** The class attribute *)

Lemma stages_class (a : Attributes) :
  snd (stages a) = Ok tt ->
  dict_get "class" (fst (stages a)) = dict_get "class" (after_classes a).
Proof.
  intros Hok. rewrite (stages_ok_state a Hok).
  apply normalise_style_get. discriminate.
Qed.

Lemma stages_contains_inv j (a : Attributes) :
  snd (stages a) = Ok tt ->
  dict_contains j (fst (stages a)) = true ->
  j = "class" \/ j = "style" \/ (j <> "classes" /\ dict_contains j a = true).
Proof.
  intros Hok H.
  destruct (string_dec j "class") as [|H1]; [auto|].
  destruct (string_dec j "style") as [|H2]; [auto|].
  right. right.
  destruct (string_dec j "classes") as [->|H3].
  - exfalso. rewrite (stages_ok_state a Hok) in H. unfold dict_contains in H.
    rewrite normalise_style_get in H by discriminate.
    unfold after_classes in H.
    destruct (dict_get "classes" a) as [[| | | | | | [|c cs]]|];
      rewrite ?dict_get_setitem_other in H by discriminate;
      rewrite dict_get_remove_same in H; discriminate.
  - split; [exact H3|]. unfold dict_contains in *.
    rewrite stages_get in H by assumption. exact H.
Qed.

(** C4 (amended): for a mapping with a [classes] set and no other key
    stored under [class], the result of the transform has a [class] entry
    if and only if the set as passed is non-empty (the empty string
    counts), and its value is then the quoted space-join of the names
    other than the empty string, in some order: the order in which the
    set left by the subtraction iterates. *)
Theorem classes_to_class (attributes : Attributes) (cs : list string)
  (out : dict_of string) :
  dict_wf attributes = true ->
  dict_get "classes" attributes = Some (VSet cs) ->
  (forall j, dict_contains j attributes = true -> j <> "classes" ->
             output_key j <> Ok "class") ->
  snd (transform attributes) = Ok out ->
  (dict_contains "class" out = true <-> cs <> [])
  /\ (cs <> [] ->
      exists names,
        Permutation names (without_empty cs)
        /\ dict_get "class" out
           = Some (Json.dumps_str (replace dq "&quot;" (join " " names)))).
Proof.
  intros Hwf Hcs Hother Hrun.
  rewrite transform_unfold in Hrun. cbn [snd] in Hrun.
  destruct (snd (stages attributes)) as [[]|e] eqn:Hok; cbn [rbind] in Hrun;
    [|discriminate].
  set (a2 := fst (stages attributes)) in *.
  assert (Hno : dict_get "class" attributes = None).
  { destruct (dict_get "class" attributes) eqn:E; [|reflexivity].
    exfalso. apply (Hother "class"); [|discriminate|reflexivity].
    unfold dict_contains. rewrite E. reflexivity. }
  assert (Hframe : forall j, dict_contains j a2 = true -> j <> "class" ->
                     skipped a2 j = true \/ output_key j <> Ok "class").
  { intros j Hj Hne. right.
    destruct (stages_contains_inv j attributes Hok Hj) as [->|[->|[H1 H2]]].
    - contradiction.
    - discriminate.
    - apply Hother; assumption. }
  pose proof (stages_class attributes Hok) as Hclass. fold a2 in Hclass.
  unfold after_classes in Hclass. rewrite Hcs in Hclass.
  destruct cs as [|c cs].
  - rewrite dict_get_remove_other, Hno in Hclass by discriminate.
    assert (E : dict_get "class" out = None).
    { rewrite (pairs_get_frame a2 a2 [] out "class" Hrun); [reflexivity|].
      intros j Hj. apply Hframe; [exact Hj|].
      intros ->. unfold dict_contains in Hj. rewrite Hclass in Hj. discriminate. }
    unfold dict_contains. rewrite E. split; [split; [discriminate | congruence]|].
    congruence.
  - rewrite dict_get_setitem_same in Hclass.
    assert (E : dict_get "class" out
                = Some (Json.dumps_str
                          (replace dq "&quot;"
                             (join " " (set_order (without_empty (c :: cs))))))).
    { apply (pairs_get_unique a2 a2 [] out "class"
               (VStr (join " " (set_order (without_empty (c :: cs))))) "class" _ Hrun);
        try reflexivity; try assumption.
      apply stages_wf; assumption. }
    unfold dict_contains. rewrite E. split; [split; [discriminate | reflexivity]|].
    intros _. exists (set_order (without_empty (c :: cs))).
    split; [apply set_order_perm | reflexivity].
Qed.

(** * Further properties of the code *)

(** ** The keys of the result *)

Lemma transform_run (attributes : Attributes) out :
  snd (transform attributes) = Ok out ->
  snd (stages attributes) = Ok tt
  /\ fst (transform attributes) = fst (stages attributes)
  /\ transform_pairs (fst (stages attributes)) (fst (stages attributes)) [] = Ok out.
Proof.
  rewrite transform_unfold. cbn [fst snd].
  destruct (snd (stages attributes)) as [[]|e]; [|discriminate]. auto.
Qed.

Lemma pairs_app (a : Attributes) xs ys new :
  transform_pairs a (xs ++ ys)%list new
  = rbind (transform_pairs a xs new) (transform_pairs a ys).
Proof.
  revert new. induction xs as [|kv xs IH]; intros new; [reflexivity|].
  cbn [app transform_pairs].
  destruct (transform_pair a kv) as [p|]; cbn [rbind]; [apply IH | reflexivity].
Qed.

(** X1: of the pairs of the mapping that the loop stores under one key,
    the last in the mapping's order gives the value: a pair that is not
    passed over, and after which no processed pair is stored under the
    same key, has its encoded value in the result, whatever came before
    it. *)
Theorem transform_last_wins (attributes before after : Attributes) (k : string)
  (v : pyval) (K value : string) (out : dict_of string) :
  fst (transform attributes) = (before ++ (k, v) :: after)%list ->
  skipped (fst (transform attributes)) k = false ->
  output_key k = Ok K ->
  encode_value v = Ok value ->
  (forall j, dict_contains j after = true ->
             skipped (fst (transform attributes)) j = true \/ output_key j <> Ok K) ->
  snd (transform attributes) = Ok out ->
  dict_get K out = Some value.
Proof.
  intros Hsplit Hs HK Hv Hafter Hrun.
  destruct (transform_run _ _ Hrun) as [_ [E H]]. rewrite E in *. clear E.
  set (a2 := fst (stages attributes)) in *.
  rewrite Hsplit in H at 2. rewrite pairs_app in H.
  destruct (transform_pairs a2 before []) as [mid|]; cbn [rbind] in H; [|discriminate].
  cbn [transform_pairs] in H. unfold transform_pair in H.
  rewrite Hs, Hv, HK in H. cbn [rbind] in H.
  rewrite (pairs_get_frame a2 after _ out K H Hafter).
  apply dict_get_setitem_same.
Qed.

Lemma pairs_contains_inv (a : Attributes) items new out K :
  transform_pairs a items new = Ok out ->
  dict_contains K out = true ->
  dict_contains K new = true
  \/ exists j, dict_contains j items = true /\ skipped a j = false /\ output_key j = Ok K.
Proof.
  revert new. induction items as [|[j w] items IH]; intros new Hrun H.
  - simpl in Hrun. injection Hrun as <-. left. exact H.
  - cbn [transform_pairs] in Hrun.
    destruct (transform_pair a (j, w)) as [p|] eqn:Ep; simpl in Hrun; [|discriminate].
    assert (Hlift : (exists j', dict_contains j' items = true /\ skipped a j' = false
                                /\ output_key j' = Ok K) ->
                    exists j', dict_contains j' ((j, w) :: items) = true
                               /\ skipped a j' = false /\ output_key j' = Ok K).
    { intros [j' [H1 H2]]. exists j'. split; [|exact H2].
      rewrite dict_contains_cons, H1. apply orb_true_r. }
    destruct (skipped a j) eqn:Es.
    + rewrite transform_pair_skipped in Ep by exact Es. injection Ep as <-.
      destruct (IH _ Hrun H) as [H'|H']; [left; exact H' | right; apply Hlift, H'].
    + destruct (transform_pair_processed a j w p Es Ep) as [key [value [E1 [_ ->]]]].
      destruct (IH _ Hrun H) as [H'|H']; [|right; apply Hlift, H'].
      destruct (string_dec K key) as [->|Hne].
      * right. exists j. rewrite dict_contains_cons, String.eqb_refl. auto.
      * left. rewrite dict_contains_setitem_other in H' by exact Hne. exact H'.
Qed.

Lemma dict_contains_In {V : Type} k (d : dict_of V) :
  dict_contains k d = true -> exists v, In (k, v) d.
Proof.
  unfold dict_contains. destruct (dict_get k d) as [v|] eqn:E; [|discriminate].
  intros _. exists v. apply dict_get_In. exact E.
Qed.

(** X2: when the transform returns, the keys of its result are exactly
    the output keys of the keys of the mapping (as the two stages left
    it) that the loop does not pass over: no attribute name is invented
    and none is lost. *)
Theorem transform_output_keys (attributes : Attributes) (out : dict_of string)
  (K : string) :
  snd (transform attributes) = Ok out ->
  (dict_contains K out = true
   <-> exists j, dict_contains j (fst (transform attributes)) = true
                 /\ skipped (fst (transform attributes)) j = false
                 /\ output_key j = Ok K).
Proof.
  intros Hrun. destruct (transform_run _ _ Hrun) as [_ [-> H]]. split.
  - intros HK. destruct (pairs_contains_inv _ _ _ _ K H HK) as [E|E]; [discriminate | exact E].
  - intros [j [Hj [Hs HKj]]]. destruct (dict_contains_In _ _ Hj) as [v Hin].
    destruct (pairs_hit _ _ _ _ j v H Hin Hs) as [key [value [E1 [_ E3]]]].
    congruence.
Qed.

(** ** The values of the result *)

Lemma quote_free_ascii_app s t :
  quote_free_ascii (s ++ t) = quote_free_ascii s && quote_free_ascii t.
Proof.
  induction s as [|c s IH]; [reflexivity|].
  cbn [append quote_free_ascii]. rewrite IH, !andb_assoc. reflexivity.
Qed.

Lemma escape_char_quote_free c :
  c <> dquote -> quote_free_ascii (Json.escape_char c) = true.
Proof.
  intros H.
  destruct c as [[] [] [] [] [] [] [] []]; try reflexivity.
  exfalso. apply H. reflexivity.
Qed.

Lemma escape_quote_free s :
  count dquote s = 0 -> quote_free_ascii (Json.escape s) = true.
Proof.
  induction s as [|c s IH]; [reflexivity|].
  cbn [count Json.escape]. intros H.
  rewrite quote_free_ascii_app.
  destruct (Ascii.eqb_spec dquote c) as [|Hne]; [discriminate H|].
  rewrite escape_char_quote_free by congruence. apply IH. exact H.
Qed.

(** After line 56's replacement no double quote is left. *)
Lemma replace_quote_count s : count dquote (replace dq "&quot;" s) = 0.
Proof.
  induction s as [|c s IH]; [reflexivity|].
  destruct (Ascii.eqb_spec dquote c) as [<-|Hne].
  - unfold dq. rewrite replace_char_hit, count_app. fold dq. rewrite IH. reflexivity.
  - unfold dq. rewrite replace_other_head by exact Hne. fold dq.
    cbn [count]. apply Ascii.eqb_neq in Hne. rewrite Hne, IH. reflexivity.
Qed.

Lemma encode_value_quoted value out :
  encode_value value = Ok out ->
  exists body, out = dq ++ body ++ dq /\ quote_free_ascii body = true.
Proof.
  unfold encode_value.
  destruct (match value with VStr s => Ok s | _ => Json.dumps value end) as [s|];
    simpl; [|discriminate].
  intros E. injection E as <-. eexists. split; [reflexivity|].
  apply escape_quote_free, replace_quote_count.
Qed.

Lemma dict_setitem_Forall {V : Type} (Q : V -> Prop) k v (d : dict_of V) :
  Q v -> Forall (fun kv => Q (snd kv)) d ->
  Forall (fun kv => Q (snd kv)) (dict_setitem k v d).
Proof.
  intros Hv. induction 1 as [|[k0 v0] d H0 Hd IH]; simpl.
  - constructor; [exact Hv | constructor].
  - destruct (String.eqb k k0); constructor; auto.
Qed.

Lemma pairs_values (Q : string -> Prop) (a : Attributes) items new out :
  (forall value s, encode_value value = Ok s -> Q s) ->
  transform_pairs a items new = Ok out ->
  Forall (fun kv => Q (snd kv)) new -> Forall (fun kv => Q (snd kv)) out.
Proof.
  intros HQ. revert new. induction items as [|[j w] items IH]; intros new Hrun Hnew.
  - simpl in Hrun. injection Hrun as <-. exact Hnew.
  - cbn [transform_pairs] in Hrun.
    destruct (transform_pair a (j, w)) as [p|] eqn:Ep; simpl in Hrun; [|discriminate].
    destruct (skipped a j) eqn:Es.
    + rewrite transform_pair_skipped in Ep by exact Es. injection Ep as <-.
      apply (IH _ Hrun Hnew).
    + destruct (transform_pair_processed a j w p Es Ep) as [key [value [_ [E ->]]]].
      apply (IH _ Hrun). apply dict_setitem_Forall; [|exact Hnew].
      apply (HQ w). exact E.
Qed.

(** X3: every value of the result is a token in double quotes whose
    inside is printable ASCII without a double quote; so no value can end
    its own quoting, break the line or carry a raw non-ASCII character. *)
Theorem transform_values_quoted (attributes : Attributes) (out : dict_of string) :
  snd (transform attributes) = Ok out ->
  Forall (fun kv => exists body,
            snd kv = dq ++ body ++ dq /\ quote_free_ascii body = true) out.
Proof.
  intros Hrun. destruct (transform_run _ _ Hrun) as [_ [_ H]].
  apply (pairs_values
           (fun s => exists body, s = dq ++ body ++ dq /\ quote_free_ascii body = true)
           _ _ _ _ encode_value_quoted H).
  constructor.
Qed.

Lemma replace_char_absent a new s :
  count a s = 0 -> replace (String a "") new s = s.
Proof.
  induction s as [|c s IH]; [reflexivity|].
  cbn [count]. intros H.
  destruct (Ascii.eqb_spec a c) as [|Hne]; [discriminate H|].
  rewrite replace_other_head by exact Hne. rewrite IH by exact H. reflexivity.
Qed.

Lemma plain_no_quote s : plain s = true -> count dquote s = 0.
Proof.
  induction s as [|c s IH]; [reflexivity|].
  cbn [plain count]. intros H.
  apply andb_true_iff in H as [H Hs]. rewrite (IH Hs).
  destruct (Ascii.eqb_spec dquote c) as [<-|]; [discriminate H | reflexivity].
Qed.

Lemma escape_plain s : plain s = true -> Json.escape s = s.
Proof.
  induction s as [|c s IH]; [reflexivity|].
  cbn [plain Json.escape]. intros H.
  apply andb_true_iff in H as [H Hs]. rewrite (IH Hs).
  destruct c as [[] [] [] [] [] [] [] []]; try discriminate H; reflexivity.
Qed.

(** X4: a string value of printable ASCII characters without double
    quote or backslash is printed as it is, in double quotes. *)
Theorem encode_plain_string (s : string) :
  plain s = true -> encode_value (VStr s) = Ok (dq ++ s ++ dq).
Proof.
  intros H. unfold encode_value, Json.dumps_str. cbn [rbind].
  pose proof (replace_char_absent dquote "&quot;" s (plain_no_quote s H)) as E.
  fold dq in E. rewrite E, escape_plain by exact H. reflexivity.
Qed.

(** ** The keys the loop stores under *)

Lemma count_replace_from c old new n s :
  count c new = 0 -> count c s = 0 -> count c (replace_from old new n s) = 0.
Proof.
  intros Hnew. revert n. induction s as [|d s IH]; intros n Hs; [reflexivity|].
  cbn [count] in Hs.
  assert (Hd : (if Ascii.eqb c d then 1 else 0) = 0) by lia.
  assert (Hs' : count c s = 0) by lia.
  cbn [replace_from]. destruct n as [|n]; [|apply IH; exact Hs'].
  destruct (prefix old (String d s)).
  - rewrite count_app, Hnew. apply IH. exact Hs'.
  - cbn [count]. rewrite Hd. apply IH. exact Hs'.
Qed.

Lemma underscore_pass_no_placeholder key : count " " (underscore_pass "_" key) = 0.
Proof.
  enough (H : count " " (underscore_pass "_" key) = 0
              /\ forall c, count " " (underscore_pass "_" (String c key)) = 0) by apply H.
  induction key as [|d key [IH1 IH2]].
  - split; [reflexivity|]. intros c. cbn [underscore_pass].
    destruct (Ascii.eqb c "_"); [reflexivity|].
    destruct (Ascii.eqb_spec c " ") as [->|Hc]; [reflexivity|].
    cbn [count]. apply not_eq_sym, Ascii.eqb_neq in Hc. rewrite Hc. reflexivity.
  - split; [apply IH2|]. intros c.
    change (underscore_pass "_" (String c (String d key)))
      with (if Ascii.eqb c "_" then
              (if Ascii.eqb d "_" then String "_" (underscore_pass "_" key)
               else String "-" (underscore_pass "_" (String d key)))
            else if Ascii.eqb c " "
                 then String "_" (underscore_pass "_" (String d key))
                 else String c (underscore_pass "_" (String d key))).
    destruct (Ascii.eqb c "_").
    + destruct (Ascii.eqb d "_"); cbn [count]; [rewrite IH1 | rewrite IH2]; reflexivity.
    + destruct (Ascii.eqb_spec c " ") as [->|Hc]; cbn [count]; rewrite IH2; [reflexivity|].
      apply not_eq_sym, Ascii.eqb_neq in Hc. rewrite Hc. reflexivity.
Qed.

(** X5: the space that line 62 uses as its placeholder never stays: no
    key the loop stores under holds a space, whatever the key passed. *)
Theorem output_key_no_space (key out : string) :
  output_key key = Ok out -> count " " out = 0.
Proof.
  unfold output_key. destruct (strip_trailing_underscore key) as [k|]; simpl; [|discriminate].
  intros E. injection E as <-.
  pose proof (underscore_pass_no_placeholder k) as H. rewrite <- hyphenate_pass in H.
  unfold normalise_colour. destruct (negb (startswith (hyphenate k) "data-")); [|exact H].
  apply count_replace_from; [reflexivity | exact H].
Qed.

Lemma get_in_range n s : n < String.length s -> exists c, get n s = Some c.
Proof.
  revert n. induction s as [|a s IH]; intros n H; simpl in H; [lia|].
  destruct n as [|n]; simpl; [eauto|]. apply IH. lia.
Qed.

Lemma index_from_end_in_range s i :
  1 <= i <= String.length s -> exists c, index_from_end s i = Some c.
Proof.
  intros H. unfold index_from_end.
  destruct (Nat.leb_spec i (String.length s)); [|lia].
  apply get_in_range. lia.
Qed.

(** X6: the stripping of lines 58-59 raises exactly on the empty key and
    on the key that is one underscore, where it indexes past the start of
    the key; on every other key it returns the key, or the key without
    its last character. *)
Theorem strip_trailing_underscore_raises (key : string) :
  (key = "" \/ key = "_" ->
   strip_trailing_underscore key = Raise (IndexError "string index out of range"))
  /\ (key <> "" -> key <> "_" ->
      strip_trailing_underscore key = Ok key
      \/ strip_trailing_underscore key = Ok (drop_last key)).
Proof.
  split.
  - intros [->| ->]; reflexivity.
  - intros H1 H2. unfold strip_trailing_underscore.
    destruct key as [|c [|d key]]; [contradiction| |].
    + assert (Hc : c <> "_"%char) by (intros ->; apply H2; reflexivity).
      unfold index_from_end; cbn. apply Ascii.eqb_neq in Hc. rewrite Hc. auto.
    + destruct (index_from_end_in_range (String c (String d key)) 1) as [c1 ->];
        [simpl; lia|].
      destruct (index_from_end_in_range (String c (String d key)) 2) as [c2 ->];
        [simpl; lia|].
      destruct (Ascii.eqb c1 "_"); [|auto].
      destruct (negb (Ascii.eqb c2 "_")); auto.
Qed.

(** X7: a mapping that has the empty key or the key that is one
    underscore makes the transform raise: it never returns a result. *)
Theorem transform_raises_on_short_key (attributes : Attributes) (key : string)
  (out : dict_of string) :
  key = "" \/ key = "_" ->
  dict_contains key attributes = true ->
  snd (transform attributes) <> Ok out.
Proof.
  intros Hkey Hin Hrun. destruct (transform_run _ _ Hrun) as [Hok [_ H]].
  assert (Hne : key <> "classes" /\ key <> "class" /\ key <> "style").
  { destruct Hkey as [->| ->]; repeat split; discriminate. }
  destruct Hne as [N1 [N2 N3]].
  assert (Hin2 : dict_contains key (fst (stages attributes)) = true).
  { unfold dict_contains in *. rewrite stages_get by assumption. exact Hin. }
  destruct (dict_contains_In _ _ Hin2) as [v Hv].
  assert (Hs : skipped (fst (stages attributes)) key = false).
  { apply skipped_fixed. destruct Hkey as [->| ->]; reflexivity. }
  destruct (pairs_hit _ _ _ _ key v H Hv Hs) as [k [value [E _]]].
  destruct Hkey as [->| ->]; discriminate E.
Qed.

(** ** The style attribute *)

(** X8: for a mapping with a [style] entry and no other key stored under
    [style], when the transform returns: a falsy style leaves no [style]
    in the result; a non-empty string comes out quoted; a non-empty
    dictionary of strings comes out as its [prop:value] items joined by
    semicolons, in the dictionary's order, quoted. *)
Theorem style_to_style (attributes : Attributes) (v : pyval) (out : dict_of string) :
  dict_wf attributes = true ->
  dict_get "style" attributes = Some v ->
  (forall j, dict_contains j attributes = true -> j <> "style" ->
             output_key j <> Ok "style") ->
  snd (transform attributes) = Ok out ->
  (truthy v = false -> dict_contains "style" out = false)
  /\ (forall s, v = VStr s -> s <> "" ->
        dict_get "style" out = Some (Json.dumps_str (replace dq "&quot;" s)))
  /\ (forall d parts, v = VDict d -> d <> [] ->
        Json.sequence (map style_item d) = Ok parts ->
        dict_get "style" out
        = Some (Json.dumps_str (replace dq "&quot;" (join ";" parts)))).
Proof.
  intros Hwf Hst Hother Hrun.
  destruct (transform_run _ _ Hrun) as [Hok [_ H]].
  destruct (stages_style attributes Hok) as [Hstate Hst1]. rewrite Hst in Hst1.
  set (a2 := fst (stages attributes)) in *.
  assert (Hframe : forall j, dict_contains j a2 = true -> j <> "style" ->
                     skipped a2 j = true \/ output_key j <> Ok "style").
  { intros j Hj Hne. right.
    destruct (stages_contains_inv j attributes Hok Hj) as [->|[->|[H1 H2]]].
    - discriminate.
    - contradiction.
    - apply Hother; assumption. }
  assert (Hwf2 : dict_wf a2 = true) by (apply stages_wf; assumption).
  assert (Hset : forall v' value,
             a2 = dict_setitem "style" v' (dict_remove "style" (after_classes attributes)) ->
             encode_value v' = Ok value -> dict_get "style" out = Some value).
  { intros v' value Ea2 Ev.
    apply (pairs_get_unique a2 a2 [] out "style" v' "style" value H); auto.
    - rewrite Ea2. apply dict_get_setitem_same. }
  split; [|split].
  - intros Hf.
    rewrite normalise_style_falsy in Hstate by (rewrite Hst1; exact Hf).
    cbn [fst] in Hstate.
    assert (Hno : dict_contains "style" a2 = false).
    { rewrite Hstate. apply dict_contains_remove_same. }
    unfold dict_contains.
    rewrite (pairs_get_frame a2 a2 [] out "style" H); [reflexivity|].
    intros j Hj. apply Hframe; [exact Hj|]. intros ->. rewrite Hno in Hj. discriminate.
  - intros s -> Hs.
    rewrite (normalise_style_other _ (VStr s) Hst1) in Hstate.
    + apply (Hset (VStr s)); [exact Hstate | reflexivity].
    + simpl. apply String.eqb_neq in Hs. rewrite Hs. reflexivity.
    + discriminate.
  - intros d parts -> Hd Hseq.
    rewrite (normalise_style_dict _ d parts Hst1 Hd Hseq) in Hstate.
    apply (Hset (VStr (join ";" parts))); [exact Hstate | reflexivity].
Qed.

(** ** Passing the mapping a second time *)

Lemma dict_remove_absent {V : Type} k (d : dict_of V) :
  dict_contains k d = false -> dict_remove k d = d.
Proof.
  induction d as [|[k0 v0] d IH]; [reflexivity|].
  rewrite dict_contains_cons. intros H. apply orb_false_iff in H as [H1 H2].
  simpl. rewrite H1, (IH H2). reflexivity.
Qed.

Lemma dict_remove_setitem_same {V : Type} k (v : V) (d : dict_of V) :
  dict_remove k (dict_setitem k v d) = dict_remove k d.
Proof.
  induction d as [|[k0 v0] d IH]; simpl.
  - rewrite String.eqb_refl. reflexivity.
  - destruct (String.eqb k k0) eqn:E; simpl; rewrite E; [reflexivity|].
    rewrite IH. reflexivity.
Qed.

Lemma dict_remove_idempotent {V : Type} k (d : dict_of V) :
  dict_remove k (dict_remove k d) = dict_remove k d.
Proof. apply dict_remove_absent, dict_contains_remove_same. Qed.

Lemma append_nonempty_r s t : t <> "" -> s ++ t <> "".
Proof. destruct s; simpl; [auto | discriminate]. Qed.

Lemma join_nonempty sep p ps : p <> "" -> join sep (p :: ps) <> "".
Proof.
  intros H. destruct ps as [|q ps]; [exact H|].
  rewrite join_cons2. destruct p; [contradiction | discriminate].
Qed.

Lemma style_items_nonempty kv d parts :
  Json.sequence (map style_item (kv :: d)) = Ok parts -> join ";" parts <> "".
Proof.
  cbn [map Json.sequence]. unfold style_item at 1.
  destruct (snd kv) as [| | |value| | |]; try discriminate. cbn [rbind].
  destruct (Json.sequence (map style_item d)) as [ps|]; [|discriminate].
  cbn [rbind]. intros E. injection E as <-.
  apply join_nonempty, append_nonempty_r. discriminate.
Qed.

(** The style stage, when it does not raise, leaves a mapping on which
    it changes nothing. *)
Lemma normalise_style_fixed (a : Attributes) :
  snd (normalise_style a) = Ok tt ->
  normalise_style (fst (normalise_style a)) = (fst (normalise_style a), Ok tt).
Proof.
  intros Hok.
  destruct (truthy match dict_get "style" a with Some v => v | None => VStr "" end) eqn:Ht.
  - destruct (dict_get "style" a) as [v|] eqn:Hst; [|discriminate Ht].
    assert (Hshape : exists v', truthy v' = true /\ (forall d, v' <> VDict d)
                       /\ fst (normalise_style a)
                          = dict_setitem "style" v' (dict_remove "style" a)).
    { assert (Hother : (forall d, v <> VDict d) ->
                exists v', truthy v' = true /\ (forall d, v' <> VDict d)
                  /\ fst (normalise_style a)
                     = dict_setitem "style" v' (dict_remove "style" a)).
      { intros Hd. exists v. repeat split; auto.
        rewrite (normalise_style_other a v Hst Ht Hd). reflexivity. }
      destruct v as [ | b | z | s | l | d | l ]; try (apply Hother; discriminate).
      clear Hother. destruct d as [|kv d]; [discriminate Ht|].
      destruct (Json.sequence (map style_item (kv :: d))) as [parts|e] eqn:Hseq.
      - exists (VStr (join ";" parts)). repeat split; try discriminate.
        + simpl. apply style_items_nonempty in Hseq.
          apply String.eqb_neq in Hseq. rewrite Hseq. reflexivity.
        + apply (normalise_style_dict a (kv :: d) parts Hst); [discriminate | exact Hseq].
      - exfalso. unfold normalise_style, bind, pop, lift in Hok.
        rewrite Hst in Hok. cbn [truthy] in Hok. rewrite Hseq in Hok. discriminate Hok. }
    destruct Hshape as [v' [Ht' [Hd' ->]]].
    rewrite (normalise_style_other _ v'); auto.
    + rewrite dict_remove_setitem_same, dict_remove_idempotent. reflexivity.
    + apply dict_get_setitem_same.
  - rewrite (normalise_style_falsy a Ht). cbn [fst].
    rewrite normalise_style_falsy.
    + rewrite dict_remove_idempotent. reflexivity.
    + rewrite dict_get_remove_same. reflexivity.
Qed.

Lemma stages_no_classes (a : Attributes) :
  snd (stages a) = Ok tt -> dict_contains "classes" (fst (stages a)) = false.
Proof.
  intros Hok. destruct (dict_contains "classes" (fst (stages a))) eqn:E; [|reflexivity].
  destruct (stages_contains_inv "classes" a Hok E) as [H|[H|[H _]]];
    [discriminate | discriminate | contradiction].
Qed.

Lemma stages_fixed (a : Attributes) :
  snd (stages a) = Ok tt -> stages (fst (stages a)) = (fst (stages a), Ok tt).
Proof.
  intros Hok. pose proof (stages_no_classes a Hok) as Hno.
  assert (Hs : snd (normalise_style (after_classes a)) = Ok tt).
  { unfold stages, bind in Hok. rewrite <- normalise_classes_state.
    destruct (normalise_classes a) as [a1 [[]|e]]; [|discriminate Hok].
    cbn [fst]. destruct (normalise_style a1) as [a2 [[]|e]]; [reflexivity | discriminate Hok]. }
  rewrite (stages_ok_state a Hok) in *.
  set (a2 := fst (normalise_style (after_classes a))) in *.
  unfold stages, bind.
  assert (Hc : normalise_classes a2 = (a2, Ok tt)).
  { unfold normalise_classes, bind, pop, ret. unfold dict_contains in Hno.
    destruct (dict_get "classes" a2) eqn:E; [discriminate Hno|]. cbn [truthy].
    rewrite dict_remove_absent; [reflexivity|].
    unfold dict_contains. rewrite E. reflexivity. }
  rewrite Hc. unfold a2. rewrite (normalise_style_fixed _ Hs). reflexivity.
Qed.

(** X9: the mapping a returning call leaves behind is a fixed point of
    the transform: passed again, it is left as it is and gives the same
    result. *)
Theorem transform_again (attributes : Attributes) (out : dict_of string) :
  snd (transform attributes) = Ok out ->
  transform (fst (transform attributes)) = (fst (transform attributes), Ok out).
Proof.
  intros Hrun. destruct (transform_run _ _ Hrun) as [Hok [-> H]].
  rewrite (transform_unfold (fst (stages attributes))).
  rewrite (stages_fixed _ Hok). cbn [fst snd rbind]. rewrite H. reflexivity.
Qed.

(** ** Minified serialisation *)

Lemma coerce_texts minify content :
  map (fun child => serialise child minify) (coerce content)
  = map (item_text minify) content.
Proof.
  unfold coerce. rewrite map_map. apply map_ext. intros [e|s]; reflexivity.
Qed.

(** X10: a container built from content items and attributes serialises,
    minified, to its open tag, the items one after the other and its
    close tag: a string item is emitted as it is, unescaped, and nothing
    is put between the items or around them. *)
Theorem new_Container_minified (tag : string) (content : Content)
  (attributes : Attributes) (e : Element) :
  new_Container tag content attributes = Ok e ->
  exists attrs,
    snd (transform attributes) = Ok attrs
    /\ serialise e true
       = "<" ++ tag ++ attribute_segment attrs ++ ">"
         ++ join "" (map (item_text true) content) ++ "</" ++ tag ++ ">".
Proof.
  unfold new_Container. destruct (snd (transform attributes)) as [attrs|]; [|discriminate].
  cbn [rbind]. intros E. injection E as <-. exists attrs. split; [reflexivity|].
  cbn [serialise negb]. rewrite indent_off, coerce_texts. reflexivity.
Qed.

Lemma join_empty_app xs ys : join "" (xs ++ ys) = join "" xs ++ join "" ys.
Proof.
  induction xs as [|x xs IH]; [reflexivity|].
  cbn [app]. rewrite !join_empty_cons, IH, append_assoc. reflexivity.
Qed.

Lemma join_app sep xs y ys :
  xs <> [] -> join sep (xs ++ y :: ys) = join sep xs ++ sep ++ join sep (y :: ys).
Proof.
  induction xs as [|x xs IH]; [contradiction|]. intros _.
  destruct xs as [|x' xs].
  - reflexivity.
  - specialize (IH ltac:(discriminate)). cbn [app] in *.
    rewrite !join_cons2, IH.
    rewrite !append_assoc. reflexivity.
Qed.

(** A joined block in the middle of a list joins like its lines, unless
    the block is empty and the separator is not. *)
Lemma join_flatten sep xs ys zs :
  sep = "" \/ ys <> [] ->
  join sep (xs ++ join sep ys :: zs) = join sep (xs ++ ys ++ zs).
Proof.
  intros [->|Hys].
  - rewrite !join_empty_app, join_empty_cons. reflexivity.
  - induction xs as [|x xs IH].
    + cbn [app]. destruct zs as [|z zs].
      * rewrite app_nil_r. reflexivity.
      * rewrite (join_app sep ys z zs Hys). reflexivity.
    + cbn [app].
      assert (H1 : exists u us, (xs ++ join sep ys :: zs)%list = u :: us).
      { destruct xs; cbn [app]; eauto. }
      assert (H2 : exists u us, (xs ++ ys ++ zs)%list = u :: us).
      { destruct xs; cbn [app]; [|eauto]. destruct ys; [contradiction|]. cbn [app]. eauto. }
      destruct H1 as [u1 [us1 E1]], H2 as [u2 [us2 E2]].
      rewrite E1, E2 in *. rewrite !join_cons2, IH. reflexivity.
Qed.

(** X11: an element group among the children of a group or of a
    container is transparent: in minified mode always, in pretty mode
    when the group is not empty, the parent serialises as if the group's
    children stood in its place. *)
Theorem group_is_transparent (minify : bool) (xs ys zs : list Element) :
  minify = true \/ ys <> [] ->
  serialise (ElementGroup (xs ++ ElementGroup ys :: zs)) minify
  = serialise (ElementGroup (xs ++ ys ++ zs)) minify
  /\ forall tag attributes,
       serialise (Container tag attributes (xs ++ ElementGroup ys :: zs)) minify
       = serialise (Container tag attributes (xs ++ ys ++ zs)) minify.
Proof.
  intros H.
  assert (E : join (if minify then "" else nl)
                (map (fun child => serialise child minify) (xs ++ ElementGroup ys :: zs))
              = join (if minify then "" else nl)
                  (map (fun child => serialise child minify) (xs ++ ys ++ zs))).
  { rewrite !map_app. cbn [map serialise]. apply join_flatten.
    destruct H as [->|H]; [left; reflexivity|].
    right. destruct ys; [contradiction | discriminate]. }
  split; [exact E|]. intros tag attributes. cbn [serialise]. rewrite E. reflexivity.
Qed.

(** Induction over a tree of elements. *)
Lemma Element_tree_ind (P : Element -> Prop) :
  (forall content, P (TextElement content)) ->
  (forall tag attributes content,
      Forall P content -> P (Container tag attributes content)) ->
  (forall tag attributes, P (Void tag attributes)) ->
  (forall content, Forall P content -> P (ElementGroup content)) ->
  (forall content, P content -> P (Component content)) ->
  forall e, P e.
Proof.
  intros Htext Hcontainer Hvoid Hgroup Hcomponent.
  fix IH 1. intros [content|tag attributes content|tag attributes|content|content].
  - apply Htext.
  - apply Hcontainer. induction content as [|c content IHc]; constructor; [apply IH | exact IHc].
  - apply Hvoid.
  - apply Hgroup. induction content as [|c content IHc]; constructor; [apply IH | exact IHc].
  - apply Hcomponent, IH.
Qed.

Lemma children_newline_free (content : list Element) :
  Forall (fun e => newline_free e = true -> count lf (serialise e true) = 0) content ->
  forallb newline_free content = true ->
  count lf (join "" (map (fun child => serialise child true) content)) = 0.
Proof.
  intros HP Hall. apply count_join_none, Forall_map.
  rewrite forallb_forall in Hall. rewrite Forall_forall in *.
  intros c Hc. apply (HP c Hc), Hall, Hc.
Qed.

(** X12: a tree in which no tag, attribute segment or text holds a line
    feed serialises, minified, without a line feed, however deep it is:
    minified output is one line. *)
Theorem minified_is_one_line (e : Element) :
  newline_free e = true -> count lf (serialise e true) = 0.
Proof.
  induction e as [content|tag attributes content IH|tag attributes|content IH|content IH]
    using Element_tree_ind; cbn [newline_free]; intros H.
  - apply Nat.eqb_eq. exact H.
  - apply andb_true_iff in H as [H Hc]. apply andb_true_iff in H as [Ht Ha].
    apply Nat.eqb_eq in Ht, Ha.
    cbn [serialise negb]. rewrite indent_off, !count_app.
    rewrite (children_newline_free content IH Hc), Ht, Ha. reflexivity.
  - apply andb_true_iff in H as [Ht Ha]. apply Nat.eqb_eq in Ht, Ha.
    cbn [serialise]. rewrite !count_app, Ht, Ha. reflexivity.
  - cbn [serialise]. apply (children_newline_free content IH H).
  - cbn [serialise]. apply IH. exact H.
Qed.

(** ** Construction *)

(** X13: constructors apply the attributes before the content, so the
    attribute failure is the one a caller sees: a text node or a group
    given any attribute raises its attribute error whatever the content
    (even content that would fail by itself), and a void element given
    any content is never constructed, whatever the attributes. *)
Theorem construction_failures (content : Content) (attributes : Attributes) :
  (attributes <> [] ->
   new_TextElement content attributes
   = Raise (TypeError "Text content cannot have attributes")
   /\ new_ElementGroup content attributes
      = Raise (TypeError "Element groups cannot have attributes"))
  /\ (content <> [] ->
      forall tag e, new_Void tag content attributes <> Ok e)
  /\ (content <> [] ->
      forall tag attrs, snd (transform attributes) = Ok attrs ->
        new_Void tag content attributes
        = Raise (TypeError "Void elements cannot have content")).
Proof.
  split; [|split].
  - intros H. destruct attributes; [contradiction|]. split; reflexivity.
  - intros H tag e. unfold new_Void.
    destruct (snd (transform attributes)); [|discriminate].
    destruct content; [contradiction | discriminate].
  - intros H tag attrs E. unfold new_Void. rewrite E.
    destruct content; [contradiction | reflexivity].
Qed.

(** ** Keys with the literal [data-] prefix *)

Lemma index_from_end_cons c key i :
  1 <= i <= String.length key ->
  index_from_end (String c key) i = index_from_end key i.
Proof.
  intros H. unfold index_from_end. cbn [String.length].
  destruct (Nat.leb_spec i (S (String.length key))); [|lia].
  destruct (Nat.leb_spec i (String.length key)); [|lia].
  replace (S (String.length key) - i) with (S (String.length key - i)) by lia.
  reflexivity.
Qed.

Lemma drop_last_cons c key : key <> "" -> drop_last (String c key) = String c (drop_last key).
Proof.
  intros H. unfold drop_last. destruct key as [|d key]; [contradiction|].
  cbn [String.length]. rewrite !Nat.sub_succ, !Nat.sub_0_r. reflexivity.
Qed.

(** On a key of two characters or more, a character put in front stays
    in front. *)
Lemma strip_cons c key :
  2 <= String.length key ->
  strip_trailing_underscore (String c key)
  = rbind (strip_trailing_underscore key) (fun k => Ok (String c k)).
Proof.
  intros H. unfold strip_trailing_underscore.
  rewrite !index_from_end_cons by lia.
  destruct (index_from_end_in_range key 1) as [c1 ->]; [lia|].
  destruct (index_from_end_in_range key 2) as [c2 ->]; [lia|].
  destruct (Ascii.eqb c1 "_"); [|reflexivity].
  destruct (negb (Ascii.eqb c2 "_")); [|reflexivity].
  cbn [rbind]. rewrite drop_last_cons; [reflexivity|].
  intros ->. simpl in H. lia.
Qed.

Lemma strip_long_ok key :
  2 <= String.length key -> exists k, strip_trailing_underscore key = Ok k.
Proof.
  intros H. unfold strip_trailing_underscore.
  destruct (index_from_end_in_range key 1) as [c1 ->]; [lia|].
  destruct (index_from_end_in_range key 2) as [c2 ->]; [lia|].
  destruct (Ascii.eqb c1 "_"); [|eauto].
  destruct (negb (Ascii.eqb c2 "_")); eauto.
Qed.

Lemma strip_data r :
  exists r', strip_trailing_underscore ("data-" ++ r) = Ok ("data-" ++ r').
Proof.
  destruct r as [|d1 [|d2 r]].
  - exists "". reflexivity.
  - unfold strip_trailing_underscore, index_from_end. cbn.
    destruct (Ascii.eqb d1 "_"); [exists "" | exists (String d1 "")]; reflexivity.
  - destruct (strip_long_ok (String d1 (String d2 r))) as [k Hk]; [simpl; lia|].
    exists k. cbn [append].
    rewrite !strip_cons by (simpl; lia). rewrite Hk. reflexivity.
Qed.

Lemma hyphenate_data r : hyphenate ("data-" ++ r) = "data-" ++ hyphenate r.
Proof.
  cbn [append]. rewrite !hyphenate_other by discriminate. reflexivity.
Qed.

(** X14: a key that starts with the literal [data-] is never passed over
    in favour of a respelling and is never respelt: it is stored under
    its stripped and hyphenated form, which still starts with [data-]. *)
Theorem data_prefix_kept (attributes : Attributes) (key : string) :
  startswith key "data-" = true ->
  skipped attributes key = false
  /\ exists k, strip_trailing_underscore key = Ok k
              /\ output_key key = Ok (hyphenate k)
              /\ startswith (hyphenate k) "data-" = true.
Proof.
  intros H. split.
  - apply skipped_fixed. unfold unnormalised_colour. rewrite H. reflexivity.
  - unfold startswith in H. apply prefix_true_split in H.
    destruct (strip_data (drop (String.length "data-") key)) as [r' Hr].
    rewrite <- H in Hr. exists ("data-" ++ r').
    assert (Hs : startswith (hyphenate ("data-" ++ r')) "data-" = true).
    { rewrite hyphenate_data. exact (prefix_app "data-" (hyphenate r')). }
    repeat split; [exact Hr | | exact Hs].
    unfold output_key. rewrite Hr. cbn [rbind].
    unfold normalise_colour. rewrite Hs. reflexivity.
Qed.

(** ** The order of the result *)

Lemma dict_contains_app {V : Type} k (d1 d2 : dict_of V) :
  dict_contains k (d1 ++ d2)%list = dict_contains k d1 || dict_contains k d2.
Proof.
  induction d1 as [|[k0 v0] d1 IH]; [reflexivity|].
  cbn [app]. rewrite !dict_contains_cons, IH, orb_assoc. reflexivity.
Qed.

Lemma dict_setitem_absent {V : Type} k (v : V) (d : dict_of V) :
  dict_contains k d = false -> dict_setitem k v d = (d ++ [(k, v)])%list.
Proof.
  induction d as [|[k0 v0] d IH]; [reflexivity|].
  rewrite dict_contains_cons. intros H. apply orb_false_iff in H as [H1 H2].
  simpl. rewrite H1, (IH H2). reflexivity.
Qed.

Lemma dict_wf_app_absent {V : Type} k (v : V) (d1 d2 : dict_of V) :
  dict_wf (d1 ++ (k, v) :: d2)%list = true -> dict_contains k d1 = false.
Proof.
  induction d1 as [|[k0 v0] d1 IH]; [reflexivity|].
  cbn [app dict_wf]. intros H. apply andb_true_iff in H as [H1 H2].
  rewrite dict_contains_cons, (IH H2), orb_false_r.
  destruct (String.eqb_spec k k0) as [->|]; [|reflexivity].
  rewrite dict_contains_app, dict_contains_cons, String.eqb_refl, orb_true_r in H1.
  discriminate H1.
Qed.

Lemma pairs_in_order (a : Attributes) items new ps :
  stored_pairs a items = Ok ps ->
  dict_wf (new ++ ps)%list = true ->
  transform_pairs a items new = Ok (new ++ ps)%list.
Proof.
  revert new ps. induction items as [|kv items IH]; intros new ps Hps Hwf.
  - simpl in Hps. injection Hps as <-. rewrite app_nil_r. reflexivity.
  - cbn [stored_pairs transform_pairs] in *.
    destruct (transform_pair a kv) as [[[key value]|]|]; cbn [rbind] in *; [| |discriminate].
    + destruct (stored_pairs a items) as [ps'|]; cbn [rbind] in Hps; [|discriminate].
      injection Hps as <-.
      rewrite dict_setitem_absent by (apply (dict_wf_app_absent key value new ps' Hwf)).
      rewrite (IH (new ++ [(key, value)])%list ps' eq_refl); rewrite <- app_assoc; [reflexivity|].
      exact Hwf.
    + destruct (stored_pairs a items) as [ps'|]; cbn [rbind] in Hps; [|discriminate].
      injection Hps as <-. apply (IH new ps' eq_refl Hwf).
Qed.

(** X15: when no two of the pairs the loop stores share a key, the result
    of the transform is those pairs in the order of the mapping (as the
    two stages left it): attributes come out in the order they went in. *)
Theorem transform_keeps_order (attributes : Attributes) (ps : list (string * string)) :
  snd (stages attributes) = Ok tt ->
  stored_pairs (fst (stages attributes)) (fst (stages attributes)) = Ok ps ->
  dict_wf ps = true ->
  snd (transform attributes) = Ok ps.
Proof.
  intros Hok Hps Hwf. rewrite transform_unfold. cbn [snd]. rewrite Hok. cbn [rbind].
  exact (pairs_in_order _ _ [] ps Hps Hwf).
Qed.

(** ** Keys that are never passed over *)

Lemma british_fixed key : contains "color" key = false -> british key = key.
Proof.
  induction key as [|c key IH]; [reflexivity|].
  intros H. cbn [contains] in H. apply orb_false_iff in H as [H1 H2].
  destruct (british_cases (String c key)) as [[r [E _]]|[E|[c' [s' [E1 [_ E2]]]]]].
  - exfalso. rewrite E in H1.
    pose proof (prefix_app "color" r) as Hp. cbn [append] in Hp, H1.
    rewrite H1 in Hp. discriminate Hp.
  - discriminate E.
  - injection E1 as <- <-. rewrite E2, (IH H2). reflexivity.
Qed.

(** X16: a key that does not hold [color] is never passed over: line 49
    can drop a key only in favour of a respelling that differs from
    it. *)
Theorem kept_without_color (attributes : Attributes) (key : string) :
  contains "color" key = false -> skipped attributes key = false.
Proof.
  intros H. apply skipped_fixed. unfold unnormalised_colour.
  destruct (startswith key "data-"); [reflexivity|].
  exact (british_fixed key H).
Qed.

(** ** Mappings of string attributes *)

Lemma strip_ok key :
  key <> "" -> key <> "_" -> exists k, strip_trailing_underscore key = Ok k.
Proof.
  intros H1 H2. destruct key as [|c [|d key]]; [contradiction| |].
  - assert (Hc : c <> "_"%char) by (intros ->; apply H2; reflexivity).
    exists (String c ""). unfold strip_trailing_underscore, index_from_end. cbn.
    apply Ascii.eqb_neq in Hc. rewrite Hc. reflexivity.
  - apply strip_long_ok. simpl. lia.
Qed.

Lemma transform_pair_string (a : Attributes) kv :
  string_entry kv = true -> exists p, transform_pair a kv = Ok p.
Proof.
  destruct kv as [k v]. unfold string_entry. cbn [fst snd]. intros H.
  apply andb_true_iff in H as [H Hv]. apply andb_true_iff in H as [H _].
  apply andb_true_iff in H as [H1 H2].
  apply negb_true_iff, String.eqb_neq in H1, H2.
  unfold transform_pair. destruct (skipped a k); [eauto|].
  destruct v; try discriminate Hv. cbn [encode_value rbind].
  unfold output_key. destruct (strip_ok k H1 H2) as [k1 ->]. cbn [rbind]. eauto.
Qed.

Lemma pairs_string (a : Attributes) items new :
  forallb string_entry items = true -> exists out, transform_pairs a items new = Ok out.
Proof.
  revert new. induction items as [|kv items IH]; intros new H; [simpl; eauto|].
  cbn [forallb] in H. apply andb_true_iff in H as [H1 H2].
  cbn [transform_pairs]. destruct (transform_pair_string a kv H1) as [p ->].
  cbn [rbind]. apply IH. exact H2.
Qed.

Lemma string_entries_remove k (a : Attributes) :
  forallb string_entry a = true -> forallb string_entry (dict_remove k a) = true.
Proof.
  induction a as [|[k0 v0] a IH]; [reflexivity|].
  cbn [forallb dict_remove]. intros H. apply andb_true_iff in H as [H1 H2].
  destruct (String.eqb k k0); [auto|]. cbn [forallb]. rewrite H1, (IH H2). reflexivity.
Qed.

Lemma string_entries_setitem k v (a : Attributes) :
  string_entry (k, v) = true -> forallb string_entry a = true ->
  forallb string_entry (dict_setitem k v a) = true.
Proof.
  intros Hkv. induction a as [|[k0 v0] a IH]; cbn [forallb dict_setitem].
  - intros _. rewrite Hkv. reflexivity.
  - intros H. apply andb_true_iff in H as [H1 H2].
    destruct (String.eqb_spec k k0) as [<-|]; cbn [forallb].
    + rewrite Hkv, H2. reflexivity.
    + rewrite H1, (IH H2). reflexivity.
Qed.

Lemma string_entries_get k v (a : Attributes) :
  forallb string_entry a = true -> dict_get k a = Some v -> exists s, v = VStr s.
Proof.
  intros H Hget. apply dict_get_In in Hget.
  rewrite forallb_forall in H. specialize (H _ Hget).
  unfold string_entry in H. apply andb_true_iff in H as [_ H]. cbn [snd] in H.
  destruct v; try discriminate H. eauto.
Qed.

Lemma string_entries_no_classes (a : Attributes) :
  forallb string_entry a = true -> dict_contains "classes" a = false.
Proof.
  induction a as [|[k0 v0] a IH]; [reflexivity|].
  cbn [forallb]. intros H. apply andb_true_iff in H as [H1 H2].
  rewrite dict_contains_cons, (IH H2), orb_false_r.
  unfold string_entry in H1. cbn [fst] in H1.
  apply andb_true_iff in H1 as [H1 _]. apply andb_true_iff in H1 as [_ H1].
  apply negb_true_iff in H1. rewrite String.eqb_sym. exact H1.
Qed.

Lemma normalise_classes_absent (a : Attributes) :
  dict_contains "classes" a = false -> normalise_classes a = (a, Ok tt).
Proof.
  intros H. unfold normalise_classes, bind, pop, ret.
  rewrite (dict_remove_absent _ _ H). unfold dict_contains in H.
  destruct (dict_get "classes" a); [discriminate H | reflexivity].
Qed.

(** X17: on a mapping whose keys are neither empty nor one underscore
    nor [classes] and whose values are all strings, the transform does
    not raise; and if the mapping has no [style] either, the call leaves
    it exactly as it was. *)
Theorem transform_returns_on_strings (attributes : Attributes) :
  forallb string_entry attributes = true ->
  (exists out, snd (transform attributes) = Ok out)
  /\ (dict_contains "style" attributes = false ->
      fst (transform attributes) = attributes).
Proof.
  intros H. rewrite transform_unfold. cbn [fst snd].
  unfold stages, bind.
  rewrite (normalise_classes_absent _ (string_entries_no_classes _ H)).
  assert (Hstyle : exists a2, normalise_style attributes = (a2, Ok tt)
                     /\ forallb string_entry a2 = true
                     /\ (dict_contains "style" attributes = false -> a2 = attributes)).
  { destruct (dict_get "style" attributes) as [v|] eqn:Hst.
    - destruct (string_entries_get _ _ _ H Hst) as [s ->].
      destruct (String.eqb_spec s "") as [->|Hs].
      + exists (dict_remove "style" attributes). split; [|split].
        * apply normalise_style_falsy. rewrite Hst. reflexivity.
        * apply string_entries_remove. exact H.
        * unfold dict_contains. rewrite Hst. discriminate.
      + exists (dict_setitem "style" (VStr s) (dict_remove "style" attributes)).
        split; [|split].
        * apply (normalise_style_other _ (VStr s) Hst); [|discriminate].
          simpl. apply String.eqb_neq in Hs. rewrite Hs. reflexivity.
        * apply string_entries_setitem; [reflexivity|].
          apply string_entries_remove. exact H.
        * unfold dict_contains. rewrite Hst. discriminate.
    - exists (dict_remove "style" attributes). split; [|split].
      + apply normalise_style_falsy. rewrite Hst. reflexivity.
      + apply string_entries_remove. exact H.
      + intros Hno. apply dict_remove_absent. exact Hno. }
  destruct Hstyle as [a2 [-> [H2 Hsame]]]. cbn [fst snd rbind].
  split; [apply pairs_string; exact H2 | exact Hsame].
Qed.

End SetOrder.

(** * The properties at concrete inputs

    The model and the theorems above, run with sets iterating in the
    order their elements are listed in. *)

Lemma passed_order_perm : forall names, Permutation (passed_order names) names.
Proof. intros names. apply Permutation_refl. Qed.

(** * Sanity checks

    The model run on the examples of the documentation. *)

Example replace_ex1 : replace "color" "colour" "background_color" = "background_colour".
Proof. reflexivity. Qed.

Example replace_ex2 : replace "__" " " "a___b" = "a _b".
Proof. reflexivity. Qed.

Example split_ex1 : splitlines ("a" ++ nl ++ nl ++ "b" ++ nl) = ["a" ++ nl; nl; "b" ++ nl].
Proof. reflexivity. Qed.

Example split_ex2 : splitlines ("a" ++ nl ++ "") = ["a" ++ nl].
Proof. reflexivity. Qed.

Example dumps_ex1 : Json.dumps (VList [VInt 1; VStr "a"; VBool true; VNone; VInt (-12)])
  = Ok ("[1, " ++ dq ++ "a" ++ dq ++ ", true, null, -12]").
Proof. reflexivity. Qed.

Example dumps_ex2 : Json.dumps (VDict [("a", VInt 0)]) = Ok ("{" ++ dq ++ "a" ++ dq ++ ": 0}").
Proof. reflexivity. Qed.

Example dumps_ex3 : Json.dumps_str (String "233"%char "x") = dq ++ "\u00e9x" ++ dq.
Proof. reflexivity. Qed.

Example transform_ex1 :
  transform passed_order [("background_colour", VStr "red"); ("background_color", VStr "blue");
             ("id__foo", VInt 1); ("aria_hidden", VStr "true"); ("class_", VStr "x")]
  = ([("background_colour", VStr "red"); ("background_color", VStr "blue");
      ("id__foo", VInt 1); ("aria_hidden", VStr "true"); ("class_", VStr "x")],
     Ok [("background-color", dq ++ "red" ++ dq); ("id_foo", dq ++ "1" ++ dq);
         ("aria-hidden", dq ++ "true" ++ dq); ("class", dq ++ "x" ++ dq)]).
Proof. reflexivity. Qed.

Example transform_ex2 :
  transform passed_order [("style", VDict [("color", VStr "red"); ("font-size", VStr "12px")]);
             ("classes", VSet ["a"; ""; "b"]); ("title", VStr ("say " ++ dq ++ "hi" ++ dq))]
  = ([("title", VStr ("say " ++ dq ++ "hi" ++ dq)); ("class", VStr "a b");
      ("style", VStr "color:red;font-size:12px")],
     Ok [("title", dq ++ "say &quot;hi&quot;" ++ dq); ("class", dq ++ "a b" ++ dq);
         ("style", dq ++ "color:red;font-size:12px" ++ dq)]).
Proof. reflexivity. Qed.

(** A run in which the set left by the subtraction iterates in another
    order than the names were listed in. *)
Example transform_ex_order :
  snd (transform (@rev string) [("classes", VSet [""; "aa"; "al"])])
  = Ok [("class", dq ++ "al aa" ++ dq)].
Proof. reflexivity. Qed.

Example transform_ex3 : snd (transform passed_order [("_", VInt 1)]) = Raise (IndexError "string index out of range").
Proof. reflexivity. Qed.

Example serialise_ex1 :
  rbind (new_Container passed_order "div" [ItemStr "hi"] []) (fun e => call_serialise e None)
  = Ok "<div>hi</div>".
Proof. reflexivity. Qed.

Example serialise_ex2 :
  serialise (Container "ul" [("id", dq ++ "l" ++ dq)]
               [Container "li" [] [TextElement "a"]; Void "br" []]) false
  = "<ul id=" ++ dq ++ "l" ++ dq ++ ">" ++ nl
    ++ "    <li>" ++ nl ++ "        a" ++ nl ++ "    </li>" ++ nl
    ++ "    <br />" ++ nl ++ "</ul>".
Proof. reflexivity. Qed.

(** C2, as stated, fails: the value is already a string, so it is quoted
    once and holds no quote to escape. *)
Lemma void_img_counterexample :
  rbind (new_Void passed_order "img" [] [("src", VStr "a.png")]) (fun e => call_serialise e (Some true))
  <> Ok ("<img src=" ++ dq ++ "&quot;a.png&quot;" ++ dq ++ " />").
Proof. vm_compute. discriminate. Qed.

(** C8, as stated, fails: a space in the key is changed by the underscore
    stage, which uses the space as its placeholder. *)
Lemma underscore_stage_counterexample :
  hyphenate "a b" = "a_b" /\ hyphenate "a b" <> underscore_pass " " "a b".
Proof. split; [reflexivity | vm_compute; discriminate]. Qed.

(** The amended C8 at three keys. *)
Lemma underscore_stage_witness :
  hyphenate "aria__x_y_" = underscore_pass " " "aria__x_y_"
  /\ strip_trailing_underscore "for_" = Ok "for"
  /\ strip_trailing_underscore "id" = Ok "id".
Proof.
  split; [|split].
  - exact (proj1 (proj2 (underscore_stage "aria__x_y_")) eq_refl).
  - refine (proj1 (proj2 (proj2 (underscore_stage "for_"))) "fo" "r"%char _ eq_refl).
    discriminate.
  - refine (proj2 (proj2 (proj2 (proj2 (underscore_stage "id")))) "i" "d"%char _ eq_refl).
    discriminate.
Defined.

(** C9, as stated, fails: a container without children serialises, in
    pretty mode, with two newlines, not one. *)
Lemma container_newlines_counterexample :
  count lf (serialise (Container "div" [] []) false) = 2
  /\ count lf (serialise (Container "div" [] []) false) <> List.length (@nil Element) + 1.
Proof. split; [reflexivity | vm_compute; discriminate]. Qed.

(** The amended C9 at a list of three one-line children. *)
Lemma container_newlines_witness :
  let ul := Container "ul" [("id", "1")]
              [TextElement "a"; Void "br" []; TextElement "b"] in
  count lf (serialise ul true) = 0
  /\ count lf (serialise ul false) = 3 + 1
  /\ serialise ul false
     = "<ul id=1>" ++ nl ++ "    a" ++ nl ++ "    <br />" ++ nl ++ "    b" ++ nl ++ "</ul>".
Proof.
  cbv zeta.
  assert (Hchildren :
            Forall (fun child => forall minify, count lf (serialise child minify) = 0)
              [TextElement "a"; Void "br" []; TextElement "b"]).
  { repeat constructor; intros []; reflexivity. }
  destruct (container_newlines "ul" [("id", "1")]
              [TextElement "a"; Void "br" []; TextElement "b"]
              eq_refl eq_refl Hchildren) as [H0 [H1 [_ H2]]].
  split; [exact H0|]. split.
  - apply H1. discriminate.
  - rewrite H2; [reflexivity|]. repeat constructor.
Defined.

(** C1, as stated, fails: the call removes [classes] from the caller's
    mapping, writes [class] into it and rewrites [style] as a string. *)
Lemma transform_mutates_input_counterexample :
  let attributes := [("classes", VSet ["a"]); ("style", VDict [("color", VStr "red")])] in
  dict_contains "classes" attributes = true
  /\ dict_contains "class" attributes = false
  /\ dict_contains "classes" (fst (transform passed_order attributes)) = false
  /\ dict_contains "class" (fst (transform passed_order attributes)) = true
  /\ dict_get "style" (fst (transform passed_order attributes)) <> dict_get "style" attributes
  /\ fst (transform passed_order attributes) <> attributes.
Proof. cbv zeta. repeat split; try reflexivity; vm_compute; discriminate. Qed.

(** The amended C1 at a mapping with classes, a style dictionary and an
    identifier. *)
Lemma transform_mutates_only_class_and_style_witness :
  let attributes := [("classes", VSet ["a"; ""]); ("id", VStr "x");
                     ("style", VDict [("color", VStr "red")])] in
  dict_get "id" (fst (transform passed_order attributes)) = dict_get "id" attributes
  /\ (exists names,
        Permutation names (without_empty ["a"; ""])
        /\ dict_get "class" (fst (transform passed_order attributes))
           = Some (VStr (join " " names)))
  /\ (exists parts,
        Json.sequence (map style_item [("color", VStr "red")]) = Ok parts
        /\ dict_get "style" (fst (transform passed_order attributes))
           = Some (VStr (join ";" parts)))
  /\ dict_get "class" (fst (transform passed_order [("class", VStr "b")]))
     = dict_get "class" [("class", VStr "b")].
Proof.
  cbv zeta.
  pose proof (transform_mutates_only_class_and_style passed_order passed_order_perm
                [("classes", VSet ["a"; ""]); ("id", VStr "x");
                 ("style", VDict [("color", VStr "red")])]) as [_ [H1 [H2 [_ H3]]]].
  pose proof (transform_mutates_only_class_and_style passed_order passed_order_perm
                [("class", VStr "b")]) as [_ [_ [_ [H4 _]]]].
  split; [|split; [|split]].
  - apply H1; discriminate.
  - apply (H2 "a" [""]). reflexivity.
  - exact (H3 [("id", dq ++ "x" ++ dq); ("class", dq ++ "a" ++ dq);
               ("style", dq ++ "color:red" ++ dq)] eq_refl).
  - apply H4. intros c cs. discriminate.
Defined.

(** C6, as stated, fails at two pairs.  [data_color] does not start with
    [data-], its respelling [data_colour] is present, and the value comes
    out under [data-colour], which is neither respelt nor ends in
    [-color].  And [color] with [colour] present comes out under [color],
    which is respelt but has no hyphen to end in [-color]. *)
Lemma colour_pair_counterexample :
  let attributes := [("data_color", VStr "blue"); ("data_colour", VStr "red")] in
  let attributes' := [("color", VStr "blue"); ("colour", VStr "red")] in
  startswith "data_color" "data-" = false
  /\ replace "color" "colour" "data_color" = "data_colour"
  /\ snd (transform passed_order attributes) = Ok [("data-colour", dq ++ "red" ++ dq)]
  /\ endswith "data-colour" "-color" = false
  /\ startswith "color" "data-" = false
  /\ replace "color" "colour" "color" = "colour"
  /\ snd (transform passed_order attributes') = Ok [("color", dq ++ "red" ++ dq)]
  /\ endswith "color" "-color" = false.
Proof. cbv zeta. repeat split. Qed.

(** The amended C6 at a background colour given in both spellings: the
    result is the one without [background_color], and it holds the value
    of [background_colour] under [background-color]. *)
Lemma colour_pair_witness :
  let attributes := [("background_colour", VStr "red"); ("background_color", VStr "blue")] in
  let out := [("background-color", dq ++ "red" ++ dq)] in
  snd (transform passed_order attributes)
  = snd (transform passed_order (dict_remove "background_color" attributes))
  /\ dict_get "background-color" out = Some (dq ++ "red" ++ dq).
Proof.
  cbv zeta.
  assert (Hne : replace "color" "colour" "background_color" <> "background_color")
    by discriminate.
  destruct (colour_pair passed_order
              [("background_colour", VStr "red"); ("background_color", VStr "blue")]
              "background_color" (VStr "red") eq_refl Hne eq_refl eq_refl) as [H1 H2].
  split; [exact H1|].
  destruct (H2 [("background-color", dq ++ "red" ++ dq)] eq_refl)
    as [stripped [key [value [Hs [Hk [_ [He [_ Hget]]]]]]]].
  assert (Es : stripped = "background_colour").
  { change (Ok "background_colour" = Ok stripped) in Hs. injection Hs as <-. reflexivity. }
  subst stripped.
  symmetry in Hk. change ("background-color" = key) in Hk. subst key.
  change (Ok (dq ++ "red" ++ dq) = Ok value) in He. injection He as <-.
  apply Hget; [reflexivity|].
  intros j Hj Hother.
  change (dict_contains j [("background_colour", VStr "red");
                           ("background_color", VStr "blue")] = true) in Hj.
  rewrite !dict_contains_cons in Hj.
  destruct (String.eqb_spec j "background_colour") as [e|_]; [contradiction|].
  destruct (String.eqb_spec j "background_color") as [e|_]; [subst j|discriminate Hj].
  left. reflexivity.
Defined.

(** C7 at a mapping with just the two keys. *)
Lemma data_colour_two_stages_witness :
  snd (transform passed_order [("data_color", VStr "blue"); ("data_colour", VStr "red")])
  = snd (transform passed_order (dict_remove "data_color"
                      [("data_color", VStr "blue"); ("data_colour", VStr "red")])).
Proof.
  exact (proj1 (proj2 (proj2
           (data_colour_two_stages passed_order
              [("data_color", VStr "blue"); ("data_colour", VStr "red")]
              (VStr "red") eq_refl eq_refl)))).
Defined.

(** C4, as stated, fails: the guard of line 36 tests the set as passed,
    so a set holding only the empty string yields a [class] entry, with
    an empty value. *)
Lemma classes_counterexample :
  without_empty [""] = []
  /\ snd (transform passed_order [("classes", VSet [""])]) = Ok [("class", dq ++ dq)]
  /\ dict_contains "class" [("class", dq ++ dq)] = true.
Proof. repeat split. Qed.

(** The amended C4 at a set of two names and the empty string. *)
Lemma classes_to_class_witness :
  exists names,
    Permutation names (without_empty ["a"; ""; "b"])
    /\ dict_get "class" [("id", dq ++ "x" ++ dq); ("class", dq ++ "a b" ++ dq)]
       = Some (Json.dumps_str (replace dq "&quot;" (join " " names))).
Proof.
  assert (Hother : forall j,
             dict_contains j [("classes", VSet ["a"; ""; "b"]); ("id", VStr "x")] = true ->
             j <> "classes" -> output_key j <> Ok "class").
  { intros j Hj Hne E. unfold dict_contains in Hj. simpl in Hj.
    destruct (String.eqb_spec j "classes"); [contradiction|].
    destruct (String.eqb_spec j "id") as [e|]; [subst j|discriminate].
    discriminate E. }
  assert (Hcs : ["a"; ""; "b"] <> []) by discriminate.
  exact (proj2 (classes_to_class passed_order passed_order_perm
                  [("classes", VSet ["a"; ""; "b"]); ("id", VStr "x")]
                  ["a"; ""; "b"]
                  [("id", dq ++ "x" ++ dq); ("class", dq ++ "a b" ++ dq)]
                  eq_refl eq_refl Hother eq_refl) Hcs).
Defined.

(** X1 at two keys that come out under the same key. *)
Lemma transform_last_wins_witness :
  dict_get "class" [("class", dq ++ "b" ++ dq); ("id", dq ++ "x" ++ dq)]
  = Some (dq ++ "b" ++ dq).
Proof.
  refine (transform_last_wins passed_order
            [("class_", VStr "a"); ("class", VStr "b"); ("id", VStr "x")]
            [("class_", VStr "a")] [("id", VStr "x")] "class" (VStr "b") "class"
            (dq ++ "b" ++ dq)
            [("class", dq ++ "b" ++ dq); ("id", dq ++ "x" ++ dq)]
            eq_refl eq_refl eq_refl eq_refl _ eq_refl).
  intros j Hj. rewrite dict_contains_cons in Hj. right.
  destruct (String.eqb_spec j "id") as [e|_]; [subst j|discriminate Hj].
  discriminate.
Defined.

(** X2 at a mapping with a key in both spellings. *)
Lemma transform_output_keys_witness :
  dict_contains "fill-color" [("fill-color", dq ++ "red" ++ dq)] = true
  <-> exists j,
        dict_contains j (fst (transform passed_order [("fill_colour", VStr "red"); ("fill_color", VInt 1)])) = true
        /\ skipped (fst (transform passed_order [("fill_colour", VStr "red"); ("fill_color", VInt 1)])) j = false
        /\ output_key j = Ok "fill-color".
Proof.
  exact (transform_output_keys passed_order [("fill_colour", VStr "red"); ("fill_color", VInt 1)]
           [("fill-color", dq ++ "red" ++ dq)] "fill-color" eq_refl).
Defined.

(** X3 at a value with a quote, a line feed and a non-ASCII character. *)
Lemma transform_values_quoted_witness :
  Forall (fun kv => exists body,
            snd kv = dq ++ body ++ dq /\ quote_free_ascii body = true)
    [("title", dq ++ "a&quot;b\nc\u00e9" ++ dq)].
Proof.
  exact (transform_values_quoted passed_order
           [("title", VStr ("a" ++ dq ++ "b" ++ nl ++ "c" ++ String "233"%char ""))]
           [("title", dq ++ "a&quot;b\nc\u00e9" ++ dq)] eq_refl).
Defined.

(** X4 at a file name. *)
Lemma encode_plain_string_witness :
  encode_value (VStr "img/a b.png") = Ok (dq ++ "img/a b.png" ++ dq).
Proof. exact (encode_plain_string "img/a b.png" eq_refl). Defined.

(** X5 at a key with a space and a double underscore. *)
Lemma output_key_no_space_witness : count " " "a_b_colors" = 0.
Proof. exact (output_key_no_space "a b__colours" "a_b_colors" eq_refl). Defined.

(** X6 at the key [id]. *)
Lemma strip_trailing_underscore_raises_witness :
  strip_trailing_underscore "id" = Ok "id"
  \/ strip_trailing_underscore "id" = Ok (drop_last "id").
Proof.
  refine (proj2 (strip_trailing_underscore_raises "id") _ _); discriminate.
Defined.

(** X7 at a mapping whose only key is one underscore. *)
Lemma transform_raises_on_short_key_witness :
  snd (transform passed_order [("_", VStr "x")]) <> Ok [].
Proof.
  exact (transform_raises_on_short_key passed_order [("_", VStr "x")] "_" []
           (or_intror eq_refl) eq_refl).
Defined.

(** X8 at a style dictionary of two properties. *)
Lemma style_to_style_witness :
  dict_get "style" [("id", dq ++ "x" ++ dq); ("style", dq ++ "color:red;top:0" ++ dq)]
  = Some (Json.dumps_str (replace dq "&quot;" (join ";" ["color:red"; "top:0"]))).
Proof.
  assert (Hother : forall j,
             dict_contains j [("style", VDict [("color", VStr "red"); ("top", VStr "0")]);
                              ("id", VStr "x")] = true ->
             j <> "style" -> output_key j <> Ok "style").
  { intros j Hj Hne E. unfold dict_contains in Hj. simpl in Hj.
    destruct (String.eqb_spec j "style"); [contradiction|].
    destruct (String.eqb_spec j "id") as [e|]; [subst j|discriminate].
    discriminate E. }
  assert (Hd : [("color", VStr "red"); ("top", VStr "0")] <> []) by discriminate.
  exact (proj2 (proj2 (style_to_style passed_order
                         [("style", VDict [("color", VStr "red"); ("top", VStr "0")]);
                          ("id", VStr "x")]
                         (VDict [("color", VStr "red"); ("top", VStr "0")])
                         [("id", dq ++ "x" ++ dq); ("style", dq ++ "color:red;top:0" ++ dq)]
                         eq_refl eq_refl Hother eq_refl))
           [("color", VStr "red"); ("top", VStr "0")] ["color:red"; "top:0"]
           eq_refl Hd eq_refl).
Defined.

(** X9 at a mapping with classes and a style dictionary. *)
Lemma transform_again_witness :
  transform passed_order (fst (transform passed_order [("classes", VSet ["a"]); ("style", VDict [("top", VStr "0")])]))
  = (fst (transform passed_order [("classes", VSet ["a"]); ("style", VDict [("top", VStr "0")])]),
     Ok [("class", dq ++ "a" ++ dq); ("style", dq ++ "top:0" ++ dq)]).
Proof.
  exact (transform_again passed_order [("classes", VSet ["a"]); ("style", VDict [("top", VStr "0")])]
           [("class", dq ++ "a" ++ dq); ("style", dq ++ "top:0" ++ dq)] eq_refl).
Defined.

(** X10 at a paragraph holding markup as text. *)
Lemma new_Container_minified_witness :
  exists attrs,
    snd (transform passed_order [("id", VStr "x")]) = Ok attrs
    /\ serialise (Container "p" [("id", dq ++ "x" ++ dq)]
                    [TextElement "<b>"; Void "br" []]) true
       = "<" ++ "p" ++ attribute_segment attrs ++ ">"
         ++ join "" (map (item_text true) [ItemStr "<b>"; ItemElement (Void "br" [])])
         ++ "</" ++ "p" ++ ">".
Proof.
  exact (new_Container_minified passed_order "p" [ItemStr "<b>"; ItemElement (Void "br" [])]
           [("id", VStr "x")] _ eq_refl).
Defined.

(** X11 at a list with a group of two items, in pretty mode. *)
Lemma group_is_transparent_witness :
  serialise (Container "ul" []
               ([TextElement "a"] ++ ElementGroup [TextElement "b"; TextElement "c"]
                :: [TextElement "d"])) false
  = serialise (Container "ul" []
                 ([TextElement "a"] ++ [TextElement "b"; TextElement "c"]
                  ++ [TextElement "d"])) false.
Proof.
  refine (proj2 (group_is_transparent false [TextElement "a"]
                   [TextElement "b"; TextElement "c"] [TextElement "d"] _) "ul" []).
  right. discriminate.
Defined.

(** X12 at a list nested in a division. *)
Lemma minified_is_one_line_witness :
  count lf (serialise (Container "div" []
                         [Container "ul" [] [TextElement "a"; Void "br" []];
                          ElementGroup [Component (TextElement "b")]]) true) = 0.
Proof.
  exact (minified_is_one_line
           (Container "div" []
              [Container "ul" [] [TextElement "a"; Void "br" []];
               ElementGroup [Component (TextElement "b")]]) eq_refl).
Defined.

(** X13 at a text node given no content and one attribute, and a void
    element given one item. *)
Lemma construction_failures_witness :
  new_TextElement [] [("id", VStr "x")]
  = Raise (TypeError "Text content cannot have attributes")
  /\ new_Void passed_order "br" [ItemStr "x"] [("id", VStr "x")]
     = Raise (TypeError "Void elements cannot have content").
Proof.
  pose proof (construction_failures passed_order [] [("id", VStr "x")]) as [H1 _].
  pose proof (construction_failures passed_order [ItemStr "x"] [("id", VStr "x")]) as [_ [_ H2]].
  split.
  - apply H1. discriminate.
  - apply (H2 ltac:(discriminate) "br" [("id", dq ++ "x" ++ dq)]). reflexivity.
Defined.

(** X14 at a data attribute spelt with [colour], its sibling present. *)
Lemma data_prefix_kept_witness :
  skipped [("data-color", VInt 1); ("data-colour", VInt 2)] "data-color" = false
  /\ exists k, strip_trailing_underscore "data-color" = Ok k
              /\ output_key "data-color" = Ok (hyphenate k)
              /\ startswith (hyphenate k) "data-" = true.
Proof.
  exact (data_prefix_kept [("data-color", VInt 1); ("data-colour", VInt 2)]
           "data-color" eq_refl).
Defined.

(** X15 at three attributes, one of them passed over. *)
Lemma transform_keeps_order_witness :
  snd (transform passed_order [("title", VStr "t"); ("fill_color", VInt 0); ("fill_colour", VInt 1);
                  ("id", VStr "x")])
  = Ok [("title", dq ++ "t" ++ dq); ("fill-color", dq ++ "1" ++ dq);
        ("id", dq ++ "x" ++ dq)].
Proof.
  exact (transform_keeps_order passed_order
           [("title", VStr "t"); ("fill_color", VInt 0); ("fill_colour", VInt 1);
            ("id", VStr "x")]
           [("title", dq ++ "t" ++ dq); ("fill-color", dq ++ "1" ++ dq);
            ("id", dq ++ "x" ++ dq)]
           eq_refl eq_refl eq_refl).
Defined.

(** X16 at the key [colour], its American spelling present. *)
Lemma kept_without_color_witness :
  skipped [("color", VStr "a"); ("colour", VStr "b")] "colour" = false.
Proof.
  exact (kept_without_color [("color", VStr "a"); ("colour", VStr "b")] "colour" eq_refl).
Defined.

(** X17 at three string attributes. *)
Lemma transform_returns_on_strings_witness :
  (exists out, snd (transform passed_order [("id", VStr "x"); ("for_", VStr "y"); ("x", VStr "")]) = Ok out)
  /\ fst (transform passed_order [("id", VStr "x"); ("for_", VStr "y"); ("x", VStr "")])
     = [("id", VStr "x"); ("for_", VStr "y"); ("x", VStr "")].
Proof.
  destruct (transform_returns_on_strings passed_order
              [("id", VStr "x"); ("for_", VStr "y"); ("x", VStr "")] eq_refl) as [H1 H2].
  split; [exact H1 | apply H2; reflexivity].
Defined.

